(** * The monthly financial ledger of the planner (money/coder_2.0.py)

    A shallow embedding of the ledger engine of the Financial Planner:
    the dataclasses [PortfolioData], [SingleValueData] and [MonthData],
    the model [FinancialPlannerModel] (add, undo, redo, export, import,
    save, load), the controller's validation layer and the two view
    methods that reach the model ([add_month_data], [clear_all]).

    Python objects are modelled by value.  This is faithful here: every
    snapshot pushed on a stack is a [copy.deepcopy], [asdict] copies
    what it returns, a popped snapshot leaves its stack when it becomes
    the live list, and no method mutates a [MonthData] after it is
    built, so no two live references ever observe each other's update.

    Methods run in a state-and-exception monad: a raised exception keeps
    the state changes made before it, as in Python. *)

From Stdlib Require Import ZArith NArith String Ascii List Bool.
From Stdlib Require Floats.SpecFloat.
From stdpp Require Import base option list gmap strings.

Import ListNotations.
Local Open Scope string_scope.
Local Open Scope list_scope.

(** ** Python strings

    A [string] stands for a Python [str] whose code points are below
    256, one [ascii] per code point. *)

Module PyStr.

Definition code (c : ascii) : N := N_of_ascii c.

(** [str.isspace] on one code point (below 256). *)
Definition isspace (c : ascii) : bool :=
  let n := code c in
  ((9 <=? n) && (n <=? 13) || (28 <=? n) && (n <=? 32)
   || (n =? 133) || (n =? 160))%N.

Fixpoint lstrip_with (ws : ascii -> bool) (s : string) : string :=
  match s with
  | EmptyString => EmptyString
  | String c s' => if ws c then lstrip_with ws s' else s
  end.

Fixpoint rstrip_with (ws : ascii -> bool) (s : string) : string :=
  match s with
  | EmptyString => EmptyString
  | String c s' =>
      match rstrip_with ws s' with
      | EmptyString => if ws c then EmptyString else String c EmptyString
      | r => String c r
      end
  end.

(** [s.strip()] *)
Definition strip (s : string) : string :=
  rstrip_with isspace (lstrip_with isspace s).

(** [s.split(sep, 1)] for a one-character separator: [None] when the
    separator does not occur (the result then has a single element). *)
Fixpoint split_once (sep : ascii) (s : string) : option (string * string) :=
  match s with
  | EmptyString => None
  | String c s' =>
      if Ascii.eqb c sep then Some (EmptyString, s')
      else match split_once sep s' with
           | Some (a, b) => Some (String c a, b)
           | None => None
           end
  end.

(** [repr(s)] for a string without quotes, backslashes or control
    characters (the keys of the ledger document). *)
Definition repr (s : string) : string := "'" ++ s ++ "'".

End PyStr.

(** ** Python floats

    A [float] is an IEEE binary64 value, here a [spec_float] of
    precision 53 and maximal exponent 1024. *)

Module PyFloat.
Import SpecFloat.

Definition float := spec_float.

Definition prec : Z := 53.
Definition emax : Z := 1024.

Definition zero : float := S754_zero false.

(** [0 <= x] *)
Definition nonneg (x : float) : bool := SFleb zero x.

(** The binary64 value nearest to [(-1)^neg * m * 10^e] (ties to even). *)
Definition of_decimal (neg : bool) (m : N) (e : Z) : float :=
  match m with
  | N0 => S754_zero neg
  | Npos p =>
      match e with
      | Zneg k =>
          SFdiv prec emax (S754_finite neg p 0)
                (S754_finite false (Pos.pow 10 k) 0)
      | _ => binary_round prec emax neg (p * Z.to_pos (10 ^ e)) 0
      end
  end.

Definition is_digit (c : ascii) : bool :=
  let n := PyStr.code c in ((48 <=? n) && (n <=? 57))%N.

(** The characters [float()] drops at both ends of its argument:
    the ASCII white space, and the two white-space code points above
    127, which it first rewrites to a space. *)
Definition is_space (c : ascii) : bool :=
  let n := PyStr.code c in
  ((9 <=? n) && (n <=? 13) || (n =? 32) || (n =? 133) || (n =? 160))%N.

Definition lower (c : ascii) : ascii :=
  let n := PyStr.code c in
  if ((65 <=? n) && (n <=? 90))%N then ascii_of_N (n + 32) else c.

Definition digits_value (ds : list ascii) : N :=
  fold_left (fun acc d => (10 * acc + (PyStr.code d - 48))%N) ds 0%N.

Fixpoint span_digits (cs : list ascii) : list ascii * list ascii :=
  match cs with
  | c :: cs' =>
      if is_digit c
      then let '(ds, rest) := span_digits cs' in (c :: ds, rest)
      else ([], cs)
  | [] => ([], [])
  end.

(** Underscores may only stand between two digits; they are removed
    before the number is read. *)
Fixpoint drop_underscores (prev : option ascii) (cs : list ascii)
  : option (list ascii) :=
  match cs with
  | [] =>
      match prev with
      | Some "_"%char => None
      | _ => Some []
      end
  | c :: cs' =>
      if Ascii.eqb c "_" then
        match prev with
        | Some p => if is_digit p then drop_underscores (Some c) cs' else None
        | None => None
        end
      else
        match prev with
        | Some "_"%char =>
            if is_digit c
            then option_map (cons c) (drop_underscores (Some c) cs')
            else None
        | _ => option_map (cons c) (drop_underscores (Some c) cs')
        end
  end.

Definition take_sign (cs : list ascii) : bool * list ascii :=
  match cs with
  | "-"%char :: r => (true, r)
  | "+"%char :: r => (false, r)
  | _ => (false, cs)
  end.

Definition matches_ci (cs : list ascii) (word : string) : bool :=
  bool_decide (map lower cs = list_ascii_of_string word).

(** The text between the stripped ends: an optional sign, then
    [inf], [infinity] or [nan] in any case, or digits with an optional
    point and an optional exponent. *)
Definition parse (cs : list ascii) : option float :=
  let '(neg, body) := take_sign cs in
  if matches_ci body "inf" || matches_ci body "infinity"
  then Some (S754_infinity neg)
  else if matches_ci body "nan" then Some S754_nan
  else
    let '(ip, r1) := span_digits body in
    let '(fp, r2) :=
      match r1 with
      | "."%char :: r => span_digits r
      | _ => ([], r1)
      end in
    match ip ++ fp with
    | [] => None
    | ds =>
        let m := digits_value ds in
        let scale := Z.of_nat (length fp) in
        match r2 with
        | [] => Some (of_decimal neg m (- scale))
        | c :: r3 =>
            if Ascii.eqb (lower c) "e" then
              let '(eneg, r4) := take_sign r3 in
              match span_digits r4 with
              | ((_ :: _) as ed, []) =>
                  let x := Z.of_N (digits_value ed) in
                  Some (of_decimal neg m ((if eneg then - x else x) - scale))
              | _ => None
              end
            else None
        end
    end.

(** [float(s)] for a [str]: [None] stands for [ValueError]. *)
Definition of_string (s : string) : option float :=
  match drop_underscores None (list_ascii_of_string s) with
  | None => None
  | Some cs =>
      parse (list_ascii_of_string
               (PyStr.rstrip_with is_space
                  (PyStr.lstrip_with is_space (string_of_list_ascii cs))))
  end.

End PyFloat.

(** ** Exceptions

    [InputValidationError] is the program's own; the others are the
    built-in exceptions its code can meet, with the interpreter's
    message (CPython 3.11 wording, on which no statement depends). *)

Inductive exn :=
| InputValidationError (msg : string)
| KeyError (key : string)
| TypeError (msg : string)
| AttributeError (msg : string)
| ValueError (msg : string)
| IndexError (msg : string)
| OSError (msg : string)
| JSONDecodeError (msg : string).

(** [str(e)] *)
Definition str_exn (e : exn) : string :=
  match e with
  | KeyError k => PyStr.repr k
  | InputValidationError m | TypeError m | AttributeError m
  | ValueError m | IndexError m | OSError m | JSONDecodeError m => m
  end.

Inductive Res (A : Type) :=
| Ok (a : A)
| Raise (e : exn).
Arguments Ok {A} a.
Arguments Raise {A} e.

(** ** Python values

    The values a ledger can hold: what [json.load] produces, and the
    floats of [float()].  A [PDict] lists the items of a [dict] in
    insertion order, with distinct keys. *)

#[local] Set Warnings "-register-all".

Inductive pyval :=
| PNone
| PBool (b : bool)
| PInt (n : Z)
| PFloat (x : PyFloat.float)
| PStr (s : string)
| PList (items : list pyval)
| PDict (items : list (string * pyval)).

Module Py.

Definition type_name (v : pyval) : string :=
  match v with
  | PNone => "NoneType"
  | PBool _ => "bool"
  | PInt _ => "int"
  | PFloat _ => "float"
  | PStr _ => "str"
  | PList _ => "list"
  | PDict _ => "dict"
  end.

Fixpoint assoc {A} (k : string) (kvs : list (string * A)) : option A :=
  match kvs with
  | [] => None
  | (k', v) :: rest => if String.eqb k k' then Some v else assoc k rest
  end.

(** [d[k] = v] on the items of a dict: an existing key keeps its place. *)
Fixpoint setitem {A} (k : string) (v : A) (kvs : list (string * A))
  : list (string * A) :=
  match kvs with
  | [] => [(k, v)]
  | (k', v') :: rest =>
      if String.eqb k k' then (k, v) :: rest else (k', v') :: setitem k v rest
  end.

(** [o[k]] for a [str] key. *)
Definition getitem (o : pyval) (k : string) : Res pyval :=
  match o with
  | PDict kvs =>
      match assoc k kvs with
      | Some v => Ok v
      | None => Raise (KeyError k)
      end
  | PStr _ => Raise (TypeError "string indices must be integers, not 'str'")
  | PList _ =>
      Raise (TypeError "list indices must be integers or slices, not str")
  | _ =>
      Raise (TypeError ("'" ++ type_name o ++ "' object is not subscriptable"))
  end.

(** Looking up the method [o.get]: only a [dict] has it. *)
Definition getattr_get (o : pyval) : Res unit :=
  match o with
  | PDict _ => Ok tt
  | _ => Raise (AttributeError
                  ("'" ++ type_name o ++ "' object has no attribute 'get'"))
  end.

(** [o.get(k, default)] *)
Definition get (o : pyval) (k : string) (default : pyval) : Res pyval :=
  match o with
  | PDict kvs =>
      match assoc k kvs with
      | Some v => Ok v
      | None => Ok default
      end
  | _ => match getattr_get o with
         | Raise e => Raise e
         | Ok _ => Ok default
         end
  end.

Fixpoint is_prefix (p s : string) : bool :=
  match p, s with
  | EmptyString, _ => true
  | String a p', String b s' => Ascii.eqb a b && is_prefix p' s'
  | String _ _, EmptyString => false
  end.

Fixpoint is_substring (p s : string) : bool :=
  is_prefix p s ||
  match s with
  | EmptyString => false
  | String _ s' => is_substring p s'
  end.

(** [k in o] for a [str] [k]. *)
Definition contains (k : string) (o : pyval) : Res bool :=
  match o with
  | PDict kvs => Ok (bool_decide (is_Some (assoc k kvs)))
  | PList items =>
      Ok (existsb (fun v => match v with
                            | PStr s => String.eqb s k
                            | _ => false
                            end) items)
  | PStr s => Ok (is_substring k s)
  | _ => Raise (TypeError
                  ("argument of type '" ++ type_name o ++ "' is not iterable"))
  end.

Fixpoint chars (s : string) : list pyval :=
  match s with
  | EmptyString => []
  | String c s' => PStr (String c EmptyString) :: chars s'
  end.

(** The elements a [for] loop over [o] visits. *)
Definition iter (o : pyval) : Res (list pyval) :=
  match o with
  | PList items => Ok items
  | PDict kvs => Ok (map (fun kv => PStr (fst kv)) kvs)
  | PStr s => Ok (chars s)
  | _ => Raise (TypeError ("'" ++ type_name o ++ "' object is not iterable"))
  end.

End Py.

(** ** Data models (the dataclasses)

    Field types are not enforced at run time: a record decoded from a
    file holds whatever the document holds, so every field is a
    [pyval]. *)

Record PortfolioData := mkPortfolioData {
  fields : pyval;
  version : pyval
}.

Record SingleValueData := mkSingleValueData {
  value : pyval;
  sv_version : pyval
}.

Record MonthData := mkMonthData {
  month : pyval;
  chumz : PortfolioData;
  cash : SingleValueData;
  crypto : SingleValueData;
  etica : SingleValueData;
  ziidi : PortfolioData;
  timestamp : pyval
}.

(** [dataclasses.asdict] *)
Definition asdict_PortfolioData (p : PortfolioData) : pyval :=
  PDict [("fields", fields p); ("version", version p)].

Definition asdict_SingleValueData (v : SingleValueData) : pyval :=
  PDict [("value", value v); ("version", sv_version v)].

Definition asdict (md : MonthData) : pyval :=
  PDict [("month", month md);
         ("chumz", asdict_PortfolioData (chumz md));
         ("cash", asdict_SingleValueData (cash md));
         ("crypto", asdict_SingleValueData (crypto md));
         ("etica", asdict_SingleValueData (etica md));
         ("ziidi", asdict_PortfolioData (ziidi md));
         ("timestamp", timestamp md)].

(** [copy.deepcopy]: an independent copy, the same value. *)
Definition deepcopy {A} (x : A) : A := x.

Definition PORTFOLIO_DEFINITIONS : list (string * list string) :=
  [("Chumz", ["Emergency Fares"; "Quick Savings"; "Chumz Monthly Savings";
              "Chumz Expenses"; "Chumz Crypto Capital"]);
   ("Cash", ["Cash"]);
   ("Crypto", ["Crypto"]);
   ("Etica", ["Etica Investment"]);
   ("Ziidi", ["Ziidi Shopping"; "Ziidi Weekly Savings";
              "Ziidi Liquid Expenses"])].

(** ** The world around the model

    Files, the log, the clock and the window.  The disk maps the paths
    the program uses to files, two paths that differ naming two files.
    A file is held as the document [json.load] reads from it
    ([json.dump] followed by [json.load] gives back the dumped value),
    or as the exception that reading it raises.  [write_faults] names
    the paths whose writing fails: at [open], leaving the file as it
    was, or during [json.dump], leaving what had been written.

    The logger is configured by [logging.basicConfig] with
    [filename="financial_planner.log"] and [filemode="a"], at level
    [DEBUG]: every record logged is a line appended to that file, a file
    of the disk like any other.  [log] keeps the records of the run in
    order.  The text of the log file is not modelled; what [json.load]
    would find in it after a line has been appended is given by
    [log_file_after], from what the file read as before and the record
    appended (every answer is allowed).  The handler keeps the file
    open for appending and logging swallows the errors of its own
    handlers, so a call of the logger never raises.

    The window is a list of what it was asked to show: message boxes
    are recorded and do not fail; [table_fault] tells whether filling
    the summary table with given rows raises (the widget code is not
    modelled, so every answer is allowed). *)

Definition LOG_FILE : string := "financial_planner.log".

Inductive level := INFO | ERROR.

Inductive log_arg :=
| AStr (s : string)
| AVal (v : pyval)
| AExn (e : exn).

Record LogRecord := mkLogRecord {
  levelname : level;
  msg : string;
  args : list log_arg
}.

Inductive file :=
| JsonFile (doc : pyval)
| BadFile (err : exn).

Inductive write_fault :=
| OpenFails (err : exn)
| DumpFails (err : exn) (remains : file).

Inductive gui_event :=
| ShowInfo (text : string)
| ShowError (text : string)
| SummaryTable (rows : list MonthData).

Record World := mkWorld {
  fs : gmap string file;
  write_faults : gmap string write_fault;
  log : list LogRecord;
  clock : nat -> string;
  ticks : nat;
  gui : list gui_event;
  table_fault : list MonthData -> option exn;
  log_file_after : option file -> LogRecord -> file
}.

Record FinancialPlannerModel := mkModel {
  storage_file : string;
  months : list MonthData;
  undo_stack : list (list MonthData);
  redo_stack : list (list MonthData)
}.

Record State := mkState {
  model : FinancialPlannerModel;
  world : World
}.

(** ** The monad of methods *)

Definition M (A : Type) : Type := State -> Res A * State.

#[export] Instance Res_ret : MRet Res := fun _ a => Ok a.
#[export] Instance Res_bind : MBind Res := fun _ _ k r =>
  match r with
  | Ok a => k a
  | Raise e => Raise e
  end.

#[export] Instance M_ret : MRet M := fun _ a s => (Ok a, s).
#[export] Instance M_bind : MBind M := fun _ _ k m s =>
  match m s with
  | (Ok a, s') => k a s'
  | (Raise e, s') => (Raise e, s')
  end.

Definition raise {A} (e : exn) : M A := fun s => (Raise e, s).

Definition lift {A} (r : Res A) : M A := fun s => (r, s).

(** [try: body / except Exception as e: handler e] *)
Definition try_except {A} (body : M A) (handler : exn -> M A) : M A :=
  fun s =>
    match body s with
    | (Raise e, s') => handler e s'
    | r => r
    end.

Fixpoint for_each {A} (l : list A) (body : A -> M unit) : M unit :=
  match l with
  | [] => mret tt
  | x :: l' => body x;; for_each l' body
  end.

Definition get_self : M FinancialPlannerModel := fun s => (Ok (model s), s).

Definition modify_self (f : FinancialPlannerModel -> FinancialPlannerModel)
  : M unit :=
  fun s => (Ok tt, mkState (f (model s)) (world s)).

Definition get_world : M World := fun s => (Ok (world s), s).

Definition modify_world (f : World -> World) : M unit :=
  fun s => (Ok tt, mkState (model s) (f (world s))).

Definition set_months (ms : list MonthData) (m : FinancialPlannerModel)
  : FinancialPlannerModel :=
  mkModel (storage_file m) ms (undo_stack m) (redo_stack m).

Definition set_undo_stack (u : list (list MonthData))
    (m : FinancialPlannerModel) : FinancialPlannerModel :=
  mkModel (storage_file m) (months m) u (redo_stack m).

Definition set_redo_stack (r : list (list MonthData))
    (m : FinancialPlannerModel) : FinancialPlannerModel :=
  mkModel (storage_file m) (months m) (undo_stack m) r.

Definition set_fs (f : gmap string file) (w : World) : World :=
  mkWorld f (write_faults w) (log w) (clock w) (ticks w) (gui w)
          (table_fault w) (log_file_after w).

(** The disk once the line of [r] has been appended to the log file. *)
Definition append_line (r : LogRecord) (w : World) : gmap string file :=
  <[LOG_FILE := log_file_after w (fs w !! LOG_FILE) r]> (fs w).

(** One record handled by the logger: kept in [log], and its line
    appended to the log file. *)
Definition add_log (r : LogRecord) (w : World) : World :=
  mkWorld (append_line r w) (write_faults w) (log w ++ [r]) (clock w)
          (ticks w) (gui w) (table_fault w) (log_file_after w).

Definition add_gui (e : gui_event) (w : World) : World :=
  mkWorld (fs w) (write_faults w) (log w) (clock w) (ticks w) (gui w ++ [e])
          (table_fault w) (log_file_after w).

Definition tick (w : World) : World :=
  mkWorld (fs w) (write_faults w) (log w) (clock w) (S (ticks w)) (gui w)
          (table_fault w) (log_file_after w).

(** [logger.info(m, *a)] and [logger.error(m, *a)] *)
Module logger.
Definition info (m : string) (a : list log_arg) : M unit :=
  modify_world (add_log (mkLogRecord INFO m a)).
Definition error (m : string) (a : list log_arg) : M unit :=
  modify_world (add_log (mkLogRecord ERROR m a)).
End logger.

(** [datetime.now().isoformat()] *)
Definition now_isoformat : M string :=
  w ← get_world;
  modify_world tick;;
  mret (clock w (ticks w)).

(** [with open(path, "r") as f: json.load(f)] *)
Definition read_json (path : string) : M pyval :=
  w ← get_world;
  match fs w !! path with
  | Some (JsonFile doc) => mret doc
  | Some (BadFile err) => raise err
  | None =>
      raise (OSError ("[Errno 2] No such file or directory: "
                        ++ PyStr.repr path))
  end.

(** [with open(path, "w") as f: json.dump(data, f, indent=4)] *)
Definition write_json (path : string) (data : pyval) : M unit :=
  w ← get_world;
  match write_faults w !! path with
  | None => modify_world (set_fs (<[path := JsonFile data]> (fs w)))
  | Some (OpenFails err) => raise err
  | Some (DumpFails err remains) =>
      modify_world (set_fs (<[path := remains]> (fs w)));;
      raise err
  end.

(** [os.path.exists(path)] *)
Definition path_exists (path : string) : M bool :=
  w ← get_world;
  mret (bool_decide (is_Some (fs w !! path))).

(** [l.pop()]: the last element, and the list without it. *)
Definition list_pop {A} (l : list A) : Res (A * list A) :=
  match last l with
  | Some x => Ok (x, removelast l)
  | None => Raise (IndexError "pop from empty list")
  end.

(** ** Model: persistence, undo and redo *)

Module Model.

(** [PortfolioData(fields=entry[key]["fields"],
                   version=entry[key].get("version", 1))] *)
Definition decode_PortfolioData (entry : pyval) (key : string)
  : Res PortfolioData :=
  o ← Py.getitem entry key;
  f ← Py.getitem o "fields";
  o' ← Py.getitem entry key;
  v ← Py.get o' "version" (PInt 1);
  mret (mkPortfolioData f v).

(** [SingleValueData(value=entry[key]["value"],
                     version=entry[key].get("version", 1))] *)
Definition decode_SingleValueData (entry : pyval) (key : string)
  : Res SingleValueData :=
  o ← Py.getitem entry key;
  x ← Py.getitem o "value";
  o' ← Py.getitem entry key;
  v ← Py.get o' "version" (PInt 1);
  mret (mkSingleValueData x v).

(** [SingleValueData(
       value=entry["etica"]["value"] if "value" in entry["etica"]
             else entry["etica"]["investment"],
       version=entry["etica"].get("version", 1))] *)
Definition decode_etica (entry : pyval) : Res SingleValueData :=
  e ← Py.getitem entry "etica";
  has_value ← Py.contains "value" e;
  x ← (if has_value : bool
       then e' ← Py.getitem entry "etica"; Py.getitem e' "value"
       else e' ← Py.getitem entry "etica"; Py.getitem e' "investment");
  o' ← Py.getitem entry "etica";
  v ← Py.get o' "version" (PInt 1);
  mret (mkSingleValueData x v).

(** The [MonthData(...)] expression of [import_data] and [load_data]
    (the same text in both), arguments evaluated left to right; the
    default of [entry.get("timestamp", ...)] reads the clock whether
    or not the key is there. *)
Definition decode_entry (entry : pyval) : M MonthData :=
  m ← lift (Py.getitem entry "month");
  c ← lift (decode_PortfolioData entry "chumz");
  ca ← lift (decode_SingleValueData entry "cash");
  cr ← lift (decode_SingleValueData entry "crypto");
  e ← lift (decode_etica entry);
  z ← lift (decode_PortfolioData entry "ziidi");
  lift (Py.getattr_get entry);;
  now ← now_isoformat;
  t ← lift (Py.get entry "timestamp" (PStr now));
  mret (mkMonthData m c ca cr e z t).

(** The body of the [for entry in data] loop. *)
Definition append_entry (entry : pyval) : M unit :=
  md ← decode_entry entry;
  modify_self (fun self => set_months (months self ++ [md]) self).

(** [self.months = []] and the [for entry in data] loop. *)
Definition replace_months (data : pyval) : M unit :=
  modify_self (set_months []);;
  entries ← lift (Py.iter data);
  for_each entries append_entry.

Definition save_data : M unit :=
  try_except
    (self ← get_self;
     let data := PList (map asdict (months self)) in
     write_json (storage_file self) data;;
     logger.info "Data saved to %s" [AStr (storage_file self)])
    (fun e => logger.error "Save data failed: %s" [AExn e]).

Definition load_data : M unit :=
  self ← get_self;
  found ← path_exists (storage_file self);
  if found : bool then
    try_except
      (data ← read_json (storage_file self);
       replace_months data;;
       logger.info "Data loaded from %s" [AStr (storage_file self)])
      (fun e =>
         logger.error "Failed to load data: %s" [AExn e];;
         modify_self (set_months []))
  else
    logger.info "No storage file found. Starting with empty data." [].

(** [FinancialPlannerModel(storage_file)] in world [w]. *)
Definition init (storage_file : string) (w : World) : Res unit * State :=
  load_data (mkState (mkModel storage_file [] [] []) w).

Definition add_month (month_data : MonthData) : M unit :=
  modify_self (fun self =>
    set_undo_stack (undo_stack self ++ [deepcopy (months self)]) self);;
  modify_self (set_redo_stack []);;
  modify_self (fun self => set_months (months self ++ [month_data]) self);;
  logger.info "Added month data for %s" [AVal (month month_data)];;
  save_data.

Definition undo : M unit :=
  self ← get_self;
  match undo_stack self with
  | _ :: _ =>
      modify_self (fun self =>
        set_redo_stack (redo_stack self ++ [deepcopy (months self)]) self);;
      self ← get_self;
      '(snapshot, rest) ← lift (list_pop (undo_stack self));
      modify_self (fun self => set_months snapshot (set_undo_stack rest self));;
      logger.info "Undo performed" [];;
      save_data
  | [] => raise (InputValidationError "Nothing to undo.")
  end.

Definition redo : M unit :=
  self ← get_self;
  match redo_stack self with
  | _ :: _ =>
      modify_self (fun self =>
        set_undo_stack (undo_stack self ++ [deepcopy (months self)]) self);;
      self ← get_self;
      '(snapshot, rest) ← lift (list_pop (redo_stack self));
      modify_self (fun self => set_months snapshot (set_redo_stack rest self));;
      logger.info "Redo performed" [];;
      save_data
  | [] => raise (InputValidationError "Nothing to redo.")
  end.

Definition export_data (filepath : string) : M unit :=
  try_except
    (self ← get_self;
     let data := PList (map asdict (months self)) in
     write_json filepath data;;
     logger.info "Data exported to %s" [AStr filepath])
    (fun e =>
       logger.error "Export failed: %s" [AExn e];;
       raise e).

Definition import_data (filepath : string) : M unit :=
  try_except
    (data ← read_json filepath;
     replace_months data;;
     logger.info "Data imported from %s" [AStr filepath])
    (fun e =>
       logger.error "Import failed: %s" [AExn e];;
       raise e).

End Model.

(** ** View: what the window shows *)

Module View.

Definition show_info (text : string) : M unit :=
  modify_world (add_gui (ShowInfo text)).

Definition show_error (text : string) : M unit :=
  modify_world (add_gui (ShowError text)).

Definition update_summary_table (rows : list MonthData) : M unit :=
  modify_world (add_gui (SummaryTable rows));;
  w ← get_world;
  match table_fault w rows with
  | Some e => raise e
  | None => mret tt
  end.

End View.

(** ** Controller: validation, and the bridge to the model *)

(** The [data] dict handed to the controller: a key may be missing;
    the values are the raw strings of the form. *)
Record FormData := mkFormData {
  data_month : option string;
  data_Chumz : option (list (string * string));
  data_Cash : option string;
  data_Crypto : option string;
  data_Etica : option string;
  data_Ziidi : option (list (string * string))
}.

Module Controller.

Definition validate_numeric_field (value field_name : string)
  : Res PyFloat.float :=
  match PyFloat.of_string value with
  | Some x => Ok x
  | None =>
      Raise (InputValidationError
               ("Invalid number for " ++ field_name ++ ": " ++ value))
  end.

(** [{key: self.validate_numeric_field(val, key)
      for key, val in items}] *)
Fixpoint validate_fields (items : list (string * string))
  : Res (list (string * pyval)) :=
  match items with
  | [] => Ok []
  | (key, val) :: rest =>
      x ← validate_numeric_field val key;
      fs ← validate_fields rest;
      mret ((key, PFloat x) :: fs)
  end.

(** The body of the [try] of [add_month_data]. *)
Definition add_month_data_try (data : FormData) : M unit :=
  let month := PyStr.strip (default "" (data_month data)) in
  (if String.eqb month ""
   then raise (InputValidationError "Month label cannot be empty.")
   else mret tt);;
  chumz_fields ← lift (validate_fields (default [] (data_Chumz data)));
  cash_val ←
    lift (validate_numeric_field (default "0" (data_Cash data)) "Cash");
  crypto_val ←
    lift (validate_numeric_field (default "0" (data_Crypto data)) "Crypto");
  etica_val ←
    lift (validate_numeric_field (default "0" (data_Etica data))
            "Etica Investment");
  ziidi_fields ← lift (validate_fields (default [] (data_Ziidi data)));
  now ← now_isoformat;
  let month_data :=
    mkMonthData (PStr month)
      (mkPortfolioData (PDict chumz_fields) (PInt 1))
      (mkSingleValueData (PFloat cash_val) (PInt 1))
      (mkSingleValueData (PFloat crypto_val) (PInt 1))
      (mkSingleValueData (PFloat etica_val) (PInt 1))
      (mkPortfolioData (PDict ziidi_fields) (PInt 1))
      (PStr now) in
  Model.add_month month_data;;
  View.show_info ("Data for " ++ month ++ " added successfully!");;
  self ← get_self;
  View.update_summary_table (months self).

Definition add_month_data (data : FormData) : M unit :=
  try_except (add_month_data_try data)
    (fun e =>
       logger.error "Error adding month data: %s" [AExn e];;
       View.show_error (str_exn e)).

Definition undo : M unit :=
  try_except
    (Model.undo;;
     self ← get_self;
     View.update_summary_table (months self);;
     View.show_info "Undo successful.")
    (fun e => View.show_error (str_exn e)).

Definition redo : M unit :=
  try_except
    (Model.redo;;
     self ← get_self;
     View.update_summary_table (months self);;
     View.show_info "Redo successful.")
    (fun e => View.show_error (str_exn e)).

(** [filepath] is the answer of the file dialog, empty when the
    dialog is cancelled. *)
Definition export_data (filepath : string) : M unit :=
  if String.eqb filepath "" then mret tt
  else
    try_except
      (Model.export_data filepath;;
       View.show_info ("Data exported to " ++ filepath))
      (fun e => View.show_error (str_exn e)).

Definition import_data (filepath : string) : M unit :=
  if String.eqb filepath "" then mret tt
  else
    try_except
      (Model.import_data filepath;;
       self ← get_self;
       View.update_summary_table (months self);;
       View.show_info "Data imported successfully.")
      (fun e => View.show_error (str_exn e)).

End Controller.

(** ** View: the two commands that reach the model *)

(** The entry widgets: the month entry, and [self.entries], keyed by
    "Portfolio_Field" in creation order, each with the text typed. *)
Record Form := mkForm {
  month_entry : string;
  entries : list (string * string)
}.

Module ViewCommands.

(** The keys [create_main_widgets] gives [self.entries]. *)
Definition entry_keys : list string :=
  flat_map (fun pf : string * list string =>
              map (fun field => (fst pf ++ "_" ++ field)%string) (snd pf))
           PORTFOLIO_DEFINITIONS.

(** The form as created, holding the texts [typed]. *)
Definition form (month_text : string) (typed : string -> string) : Form :=
  mkForm month_text (map (fun key => (key, typed key)) entry_keys).

Definition is_in (x : string) (l : list string) : bool :=
  existsb (String.eqb x) l.

(** [data[port][field] = v] for a multi-field portfolio. *)
Definition set_field (port field v : string) (data : FormData) : FormData :=
  if String.eqb port "Chumz" then
    mkFormData (data_month data)
      (Some (Py.setitem field v (default [] (data_Chumz data))))
      (data_Cash data) (data_Crypto data) (data_Etica data) (data_Ziidi data)
  else
    mkFormData (data_month data) (data_Chumz data)
      (data_Cash data) (data_Crypto data) (data_Etica data)
      (Some (Py.setitem field v (default [] (data_Ziidi data)))).

(** [data[port] = v] for a single-value portfolio. *)
Definition set_scalar (port v : string) (data : FormData) : FormData :=
  if String.eqb port "Cash" then
    mkFormData (data_month data) (data_Chumz data)
      (Some v) (data_Crypto data) (data_Etica data) (data_Ziidi data)
  else if String.eqb port "Crypto" then
    mkFormData (data_month data) (data_Chumz data)
      (data_Cash data) (Some v) (data_Etica data) (data_Ziidi data)
  else
    mkFormData (data_month data) (data_Chumz data)
      (data_Cash data) (data_Crypto data) (Some v) (data_Ziidi data).

(** One round of the loop over [self.entries.items()]. *)
Definition process_entry (data : FormData) (key text : string)
  : M FormData :=
  try_except
    (match PyStr.split_once "_" key with
     | None =>
         raise (ValueError "not enough values to unpack (expected 2, got 1)")
     | Some (port, field) =>
         let value := PyStr.strip text in
         let v := if String.eqb value "" then "0" else value in
         if is_in port ["Chumz"; "Ziidi"]
         then mret (set_field port field v data)
         else if is_in port ["Cash"; "Crypto"; "Etica"]
              then mret (set_scalar port v data)
              else mret data
     end)
    (fun e =>
       logger.error "Error processing entry %s: %s" [AStr key; AExn e];;
       mret data).

Fixpoint collect (data : FormData) (items : list (string * string))
  : M FormData :=
  match items with
  | [] => mret data
  | (key, text) :: rest =>
      data' ← process_entry data key text;
      collect data' rest
  end.

Definition add_month_data (f : Form) : M unit :=
  let data :=
    mkFormData (Some (PyStr.strip (month_entry f)))
               (Some []) (Some "") (Some "") (Some "") (Some []) in
  data ← collect data (entries f);
  Controller.add_month_data data.

(** [confirmed] is the answer to the "Clear All" question. *)
Definition clear_all (confirmed : bool) : M unit :=
  if confirmed then
    modify_self (set_months []);;
    self ← get_self;
    View.update_summary_table (months self)
  else mret tt.

End ViewCommands.

(** ** The commands of the window, and the states they reach *)

Inductive command :=
| AddMonth (month_text : string) (typed : string -> string)
| Undo
| Redo
| ExportData (filepath : string)
| ImportData (filepath : string)
| ClearAll (confirmed : bool).

Definition run_command (c : command) : M unit :=
  match c with
  | AddMonth month_text typed =>
      ViewCommands.add_month_data (ViewCommands.form month_text typed)
  | Undo => Controller.undo
  | Redo => Controller.redo
  | ExportData filepath => Controller.export_data filepath
  | ImportData filepath => Controller.import_data filepath
  | ClearAll confirmed => ViewCommands.clear_all confirmed
  end.

Inductive reachable : State -> Prop :=
| reachable_init storage w :
    reachable (snd (Model.init storage w))
| reachable_step c s :
    reachable s -> reachable (snd (run_command c s)).

(** ** Vocabulary of the properties *)

(** The error kinds, as the exceptions the code raises for them. *)
Definition NothingToUndo : exn := InputValidationError "Nothing to undo.".
Definition NothingToRedo : exn := InputValidationError "Nothing to redo.".
Definition EmptyMonthLabel : exn :=
  InputValidationError "Month label cannot be empty.".
Definition InvalidNumber (field_name raw : string) : exn :=
  InputValidationError ("Invalid number for " ++ field_name ++ ": " ++ raw).

Definition is_ok {A} (r : Res A) : bool :=
  match r with Ok _ => true | Raise _ => false end.

(** The exception a failing write raises. *)
Definition fault_exn (f : write_fault) : exn :=
  match f with OpenFails e | DumpFails e _ => e end.

Definition save_failed_record (e : exn) : LogRecord :=
  mkLogRecord ERROR "Save data failed: %s" [AExn e].

(** The raw strings [add_month_data] validates, each with the field
    name it is validated under, in the order of validation. *)
Definition raw_fields (data : FormData) : list (string * string) :=
  default [] (data_Chumz data)
  ++ [("Cash", default "0" (data_Cash data));
      ("Crypto", default "0" (data_Crypto data));
      ("Etica Investment", default "0" (data_Etica data))]
  ++ default [] (data_Ziidi data).

Definition parses (raw : string) : bool :=
  bool_decide (is_Some (PyFloat.of_string raw)).

(** The text the view hands over for the entry [key]. *)
Definition raw_text (typed : string -> string) (key : string) : string :=
  let v := PyStr.strip (typed key) in
  if String.eqb v "" then "0" else v.

(** The field names of a multi-field container. *)
Definition field_names (v : pyval) : list string :=
  match v with
  | PDict kvs => map fst kvs
  | _ => []
  end.

Definition schema (portfolio : string) : list string :=
  default [] (Py.assoc portfolio PORTFOLIO_DEFINITIONS).

(** [0 <= v] *)
Definition value_nonneg (v : pyval) : bool :=
  match v with
  | PInt n => (0 <=? n)%Z
  | PFloat x => PyFloat.nonneg x
  | PBool _ => true
  | _ => false
  end.

Definition fields_nonneg (v : pyval) : bool :=
  match v with
  | PDict kvs => forallb (fun kv => value_nonneg (snd kv)) kvs
  | _ => false
  end.

Definition values_nonneg (md : MonthData) : bool :=
  fields_nonneg (fields (chumz md)) && value_nonneg (value (cash md))
  && value_nonneg (value (crypto md)) && value_nonneg (value (etica md))
  && fields_nonneg (fields (ziidi md)).

(** [v] is the float that [float(raw)] returns. *)
Definition validated_scalar (raw : string) (v : pyval) : Prop :=
  exists x, v = PFloat x /\ PyFloat.of_string raw = Some x.

(** [kvs] holds, name by name and in order, the floats of the raw
    strings of [items]. *)
Definition validated (items : list (string * string))
    (kvs : list (string * pyval)) : Prop :=
  Forall2 (fun fv kv => fst kv = fst fv /\ validated_scalar (snd fv) (snd kv))
          items kvs.

(** The record [add_month_data] builds from [data]. *)
Definition built_from (data : FormData) (md : MonthData) : Prop :=
  month md = PStr (PyStr.strip (default "" (data_month data))) /\
  (exists kvs, fields (chumz md) = PDict kvs /\
               validated (default [] (data_Chumz data)) kvs) /\
  validated_scalar (default "0" (data_Cash data)) (value (cash md)) /\
  validated_scalar (default "0" (data_Crypto data)) (value (crypto md)) /\
  validated_scalar (default "0" (data_Etica data)) (value (etica md)) /\
  (exists kvs, fields (ziidi md) = PDict kvs /\
               validated (default [] (data_Ziidi data)) kvs).

(** The [data] the view collects from the form as created. *)
Definition form_data (month_text : string) (typed : string -> string)
  : FormData :=
  let portfolio p :=
    map (fun name => (name, raw_text typed (p ++ "_" ++ name)%string))
        (schema p) in
  mkFormData (Some (PyStr.strip month_text))
             (Some (portfolio "Chumz"))
             (Some (raw_text typed "Cash_Cash"))
             (Some (raw_text typed "Crypto_Crypto"))
             (Some (raw_text typed "Etica_Etica Investment"))
             (Some (portfolio "Ziidi")).

(** A multi-field container holding the floats of the texts typed for
    the fields of [portfolio]. *)
Definition stored_fields (typed : string -> string) (portfolio : string)
    (v : pyval) : Prop :=
  exists kvs,
    v = PDict kvs /\
    validated (map (fun name =>
                      (name, raw_text typed (portfolio ++ "_" ++ name)%string))
                   (schema portfolio)) kvs.

(** The model after [add_month md]. *)
Definition appended (md : MonthData) (m : FinancialPlannerModel)
  : FinancialPlannerModel :=
  mkModel (storage_file m) (months m ++ [md]) (undo_stack m ++ [months m]) [].

Definition info_record (text : string) (a : list log_arg) : LogRecord :=
  mkLogRecord INFO text a.

Definition error_record (e : exn) : LogRecord :=
  mkLogRecord ERROR "Error adding month data: %s" [AExn e].

(** What [json.load] says of an empty file, and of a file that starts
    with a line of the logger (a date, refused after the year). *)
Definition empty_file : file :=
  BadFile (JSONDecodeError "Expecting value: line 1 column 1 (char 0)").

Definition log_lines : file :=
  BadFile (JSONDecodeError "Extra data: line 1 column 5 (char 4)").

(** Decoding one entry of a document when the clock reads [now]: the
    outcome of [Model.decode_entry] in a state with that clock. *)
Definition probe (now : string) : State :=
  mkState (mkModel "" [] [] [])
          (mkWorld ∅ ∅ [] (fun _ => now) 0 [] (fun _ => None)
                   (fun _ _ => log_lines)).

Definition decode_at (now : string) (entry : pyval) : Res MonthData :=
  fst (Model.decode_entry entry (probe now)).

Definition well_formed (entry : pyval) : bool := is_ok (decode_at "" entry).

Definition tick_state (s : State) : State :=
  mkState (model s) (tick (world s)).

(** An entry [md] that a document entry decodes to, at some reading of
    the clock. *)
Definition decoded (entry : pyval) (md : MonthData) : Prop :=
  exists now, decode_at now entry = Ok md.

(** The Etica object of a document entry holds [v] under the key
    [value] or, having no such key, holds [v] under [investment]. *)
Definition etica_resolves_to (entry v : pyval) : Prop :=
  exists kvs,
    Py.getitem entry "etica" = Ok (PDict kvs) /\
    match Py.assoc "value" kvs with
    | Some x => x = v
    | None => Py.assoc "investment" kvs = Some v
    end.

(** The Etica object of a document entry holds [v] under the key
    [value], and has no key [investment]. *)
Definition emits_value (entry v : pyval) : Prop :=
  exists kvs,
    Py.getitem entry "etica" = Ok (PDict kvs) /\
    Py.assoc "value" kvs = Some v /\
    Py.assoc "investment" kvs = None.

(** [doc] is a list with one entry for each record of [mds], in order,
    each carrying the Etica scalar of its record under [value]. *)
Definition emits_values (mds : list MonthData) (doc : file) : Prop :=
  exists entries,
    doc = JsonFile (PList entries) /\
    Forall2 (fun md entry => emits_value entry (value (etica md)))
            mds entries.

(** The records [mds] hold, entry by entry, the Etica scalars that the
    entries resolve to. *)
Definition etica_resolved (entries : list pyval) (mds : list MonthData)
  : Prop :=
  Forall2 (fun entry md => etica_resolves_to entry (value (etica md)))
          entries mds.

Definition import_failed_record (e : exn) : LogRecord :=
  mkLogRecord ERROR "Import failed: %s" [AExn e].

Definition load_failed_record (e : exn) : LogRecord :=
  mkLogRecord ERROR "Failed to load data: %s" [AExn e].

(** ** Sample data *)

Definition noon : string := "2025-03-01T12:00:00".

Definition scalar (v : pyval) : pyval :=
  PDict [("value", v); ("version", PInt 1)].

Definition no_fields : pyval :=
  PDict [("fields", PDict []); ("version", PInt 1)].

(** An entry written by the earlier version of the program: the Etica
    scalar under the key [investment]. *)
Definition legacy_entry : pyval :=
  PDict [("month", PStr "January 2025");
         ("chumz", no_fields);
         ("cash", scalar (PInt 0));
         ("crypto", scalar (PInt 0));
         ("etica", PDict [("investment", PInt 500)]);
         ("ziidi", no_fields);
         ("timestamp", PStr "2025-01-31T18:30:00")].

(** An entry whose Etica object has neither key. *)
Definition broken_entry : pyval :=
  PDict [("month", PStr "February 2025");
         ("chumz", no_fields);
         ("cash", scalar (PInt 0));
         ("crypto", scalar (PInt 0));
         ("etica", PDict [("version", PInt 1)]);
         ("ziidi", no_fields);
         ("timestamp", PStr "2025-02-28T18:30:00")].

(** A disk with two documents and a new, empty log file beside the
    (absent) backing file, and a window that never fails.  The log
    file starts with the first line logged, whatever follows. *)
Definition quiet_world : World :=
  mkWorld {[ "legacy.json" := JsonFile (PList [legacy_entry]);
             "mixed.json" := JsonFile (PList [legacy_entry; broken_entry;
                                              legacy_entry]);
             LOG_FILE := empty_file ]}
          ∅ [] (fun _ => noon) 0 [] (fun _ => None) (fun _ _ => log_lines).

Definition typed_march (key : string) : string :=
  if String.eqb key "Chumz_Quick Savings" then " 12.5"
  else if String.eqb key "Cash_Cash" then "200"
  else "".

Definition typed_debt (key : string) : string :=
  if String.eqb key "Cash_Cash" then "-5" else "".

Definition started : State := snd (Model.init "month_data.json" quiet_world).

Definition with_march : State :=
  snd (run_command (AddMonth "March 2025" typed_march) started).

Definition backed_up : State :=
  snd (run_command (ExportData "backup.json") with_march).

Definition undone : State := snd (run_command Undo backed_up).

Definition legacy_loaded : State :=
  snd (Model.init "legacy.json" quiet_world).

(** The legacy ledger exported, and then grown by a month. *)
Definition legacy_backed_up : State :=
  snd (Model.export_data "backup.json" legacy_loaded).

Definition legacy_moved_on : State :=
  snd (run_command (AddMonth "March 2025" typed_march) legacy_backed_up).

(** What [legacy_entry] decodes to. *)
Definition january : MonthData :=
  mkMonthData (PStr "January 2025")
    (mkPortfolioData (PDict []) (PInt 1))
    (mkSingleValueData (PInt 0) (PInt 1))
    (mkSingleValueData (PInt 0) (PInt 1))
    (mkSingleValueData (PInt 500) (PInt 1))
    (mkPortfolioData (PDict []) (PInt 1))
    (PStr "2025-01-31T18:30:00").

(** The same ledger on a disk that refuses to open the backing file. *)
Definition denied : exn :=
  OSError "[Errno 13] Permission denied: 'month_data.json'".

Definition read_only (s : State) : State :=
  mkState (model s)
    (mkWorld (fs (world s)) {[ "month_data.json" := OpenFails denied ]}
       (log (world s)) (clock (world s)) (ticks (world s)) (gui (world s))
       (table_fault (world s)) (log_file_after (world s))).

(** ** Further functions: configuration and the plot requests *)

(** Two more methods of [str], on code points below 256. *)
Module PyText.

Definition lower_char (c : ascii) : ascii :=
  let n := PyStr.code c in
  if ((65 <=? n) && (n <=? 90)
      || (192 <=? n) && (n <=? 222) && negb (n =? 215))%N
  then ascii_of_N (n + 32)
  else c.

(** [s.lower()] *)
Fixpoint lower (s : string) : string :=
  match s with
  | EmptyString => EmptyString
  | String c s' => String (lower_char c) (lower s')
  end.

(** [s.split(sep)] for a one-character separator. *)
Fixpoint split (sep : ascii) (s : string) : list string :=
  match s with
  | EmptyString => [EmptyString]
  | String c s' =>
      if Ascii.eqb c sep then EmptyString :: split sep s'
      else match split sep s' with
           | piece :: pieces => String c piece :: pieces
           | [] => [String c EmptyString]
           end
  end.

End PyText.

(** [[f(x) for x in l]], stopping at the first exception. *)
Fixpoint map_res {A B} (f : A -> Res B) (l : list A) : Res (list B) :=
  match l with
  | [] => Ok []
  | x :: l' =>
      y ← f x;
      ys ← map_res f l';
      mret (y :: ys)
  end.

(** [o.keys()] *)
Definition py_keys (o : pyval) : Res (list string) :=
  match o with
  | PDict kvs => Ok (map fst kvs)
  | _ => Raise (AttributeError
                  ("'" ++ Py.type_name o ++ "' object has no attribute 'keys'"))
  end.

Definition CONFIG_FILE : string := "config.json".

Definition DEFAULT_CONFIG : pyval :=
  PDict [("storage_file", PStr "month_data.json")].

(** [load_config()]; it runs before the model exists: it reads the disk
    and logs. *)
Definition load_config : M pyval :=
  found ← path_exists CONFIG_FILE;
  loaded ← (if found : bool then
              try_except
                (config ← read_json CONFIG_FILE;
                 logger.info "Configuration loaded from file." [];;
                 mret (Some config))
                (fun e =>
                   logger.error "Failed to load config, using defaults: %s"
                                [AExn e];;
                   mret None)
            else mret None);
  match loaded with
  | Some config => mret config
  | None =>
      logger.info "Using default configuration." [];;
      mret DEFAULT_CONFIG
  end.

Definition save_config (config : pyval) : M unit :=
  write_json CONFIG_FILE config;;
  logger.info "Configuration saved." [].

(** The first two statements of [main]: the value the model is then
    constructed with. *)
Definition main_storage_file : M pyval :=
  config ← load_config;
  lift (Py.get config "storage_file" (PStr "month_data.json")).

(** One [ax.plot(months, values, label=field)] request. *)
Record plot_line := mkLine {
  line_portfolio : string;
  line_field : string;
  line_values : list pyval
}.

(** The plotting methods of the controller, up to what they hand to
    matplotlib (whose calls are outside the model and taken to return). *)
Module ControllerPlots.

(** [md.month.lower()] *)
Definition month_lower (md : MonthData) : Res string :=
  match month md with
  | PStr label => Ok (PyText.lower label)
  | v => Raise (AttributeError
                  ("'" ++ Py.type_name v
                   ++ "' object has no attribute 'lower'"))
  end.

(** [[md for md in months if md.month.lower() in selected_months]] *)
Fixpoint filter_selected (selected_months : list string)
    (ms : list MonthData) : Res (list MonthData) :=
  match ms with
  | [] => Ok []
  | md :: rest =>
      label ← month_lower md;
      kept ← filter_selected selected_months rest;
      mret (if ViewCommands.is_in label selected_months
            then md :: kept else kept)
  end.

(** [plot_progress_over_time] up to the first call of matplotlib: the
    records it goes on to plot, or [None] when it has returned after an
    error box. *)
Definition select_months (selected_months : option (list string))
  : M (option (list MonthData)) :=
  self ← get_self;
  match months self with
  | [] => View.show_error "No data available.";; mret None
  | _ :: _ =>
      filtered ← match selected_months with
                 | Some ((_ :: _) as selected) =>
                     lift (filter_selected selected (months self))
                 | _ => mret (months self)
                 end;
      match filtered with
      | [] => View.show_error "No matching months found.";; mret None
      | _ :: _ => mret (Some filtered)
      end
  end.

(** The [portfolios] dict of getters. *)
Definition portfolios : list (string * (MonthData -> pyval)) :=
  [("Chumz", fun md => fields (chumz md));
   ("Cash", fun md => PDict [("Cash", value (cash md))]);
   ("Crypto", fun md => PDict [("Crypto", value (crypto md))]);
   ("Etica", fun md => PDict [("Investment", value (etica md))]);
   ("Ziidi", fun md => fields (ziidi md))].

(** [[getter(md).get(field, 0) for md in filtered]] *)
Definition values_of (getter : MonthData -> pyval) (field : string)
    (filtered : list MonthData) : Res (list pyval) :=
  map_res (fun md => Py.get (getter md) field (PInt 0)) filtered.

(** The lines requested for one portfolio: one for each key of the
    first record's mapping. *)
Definition portfolio_lines (filtered : list MonthData)
    (portfolio : string * (MonthData -> pyval)) : Res (list plot_line) :=
  let '(port_name, getter) := portfolio in
  match filtered with
  | [] => Raise (IndexError "list index out of range")
  | first :: _ =>
      sample_keys ← py_keys (getter first);
      map_res (fun field =>
                 values ← values_of getter field filtered;
                 mret (mkLine port_name field values))
              sample_keys
  end.

Definition progress_lines (filtered : list MonthData)
  : Res (list plot_line) :=
  per_portfolio ← map_res (portfolio_lines filtered) portfolios;
  mret (concat per_portfolio).

(** [plot_progress_over_time(selected_months, interactive)]: the lines
    it requests (the same for both kinds of figure). *)
Definition plot_progress_over_time (selected_months : option (list string))
  : M (option (list plot_line)) :=
  selection ← select_months selected_months;
  match selection with
  | None => mret None
  | Some filtered =>
      lines ← lift (progress_lines filtered);
      mret (Some lines)
  end.

(** [plot_monthly_breakdown]: the record handed to the plotting thread,
    or [None] after the error box. *)
Definition plot_monthly_breakdown : M (option MonthData) :=
  self ← get_self;
  match last (months self) with
  | None => View.show_error "No data to plot.";; mret None
  | Some month_data => mret (Some month_data)
  end.

End ControllerPlots.

(** [open_progress_dialog]: [answer] is what the dialog returns, [None]
    when it is cancelled. *)
Definition selection_of (months_str : string) : option (list string) :=
  if String.eqb (PyStr.strip months_str) "" then None
  else Some (map (fun m => PyText.lower (PyStr.strip m))
                 (PyText.split "," months_str)).

Definition open_progress_dialog (answer : option string)
  : M (option (list plot_line)) :=
  match answer with
  | None => mret None
  | Some months_str =>
      ControllerPlots.plot_progress_over_time (selection_of months_str)
  end.

(** ** Vocabulary of the further properties *)

(** [m] run [n] times in a row. *)
Fixpoint repeat_m (n : nat) (m : M unit) : M unit :=
  match n with
  | O => mret tt
  | S n' => m;; repeat_m n' m
  end.

(** The snapshots that adding [mds] one by one to [ms] pushes. *)
Fixpoint snapshots (ms mds : list MonthData) : list (list MonthData) :=
  match mds with
  | [] => []
  | md :: rest => ms :: snapshots (ms ++ [md]) rest
  end.

(** A model constructed anew on the storage file of [s], on the disk
    that [s] leaves. *)
Definition restarted (s : State) : State :=
  snd (Model.init (storage_file (model s)) (world s)).

Definition has_comma (s : string) : bool :=
  existsb (Ascii.eqb ",") (list_ascii_of_string s).

Definition label_of (md : MonthData) : option string :=
  match month md with
  | PStr label => Some label
  | _ => None
  end.

(** A record whose month is a string. *)
Definition labelled (md : MonthData) : Prop := is_Some (label_of md).

(** Whether a record is kept for the lower-cased names [selected]. *)
Definition is_selected (selected : list string) (md : MonthData) : bool :=
  match label_of md with
  | Some label => ViewCommands.is_in (PyText.lower label) selected
  | None => false
  end.

(** The items of a mapping; nothing for any other value. *)
Definition dict_items (v : pyval) : list (string * pyval) :=
  match v with
  | PDict kvs => kvs
  | _ => []
  end.

Definition is_dict (v : pyval) : bool :=
  match v with
  | PDict _ => true
  | _ => false
  end.

(** The line of [field] of one portfolio: for each record the value
    under [field], 0 where the record has none. *)
Definition line_of (filtered : list MonthData) (port_name : string)
    (getter : MonthData -> pyval) (field : string) : plot_line :=
  mkLine port_name field
    (map (fun md => default (PInt 0) (Py.assoc field (dict_items (getter md))))
         filtered).

(** One line for each key of the first record's mappings, portfolio by
    portfolio. *)
Definition lines_of (filtered : list MonthData) (first : MonthData)
  : list plot_line :=
  flat_map (fun portfolio : string * (MonthData -> pyval) =>
              map (line_of filtered (fst portfolio) (snd portfolio))
                  (map fst (dict_items (snd portfolio first))))
           ControllerPlots.portfolios.

(** ** More sample data *)

Definition with_comma_label : State :=
  snd (run_command (AddMonth "March, 2025" typed_march) started).

(** The ledger of [s] beside a document that is an object, not a list. *)
Definition with_notes (s : State) : State :=
  mkState (model s)
    (set_fs (<["notes.json" := JsonFile (PDict [("month", PStr "May 2025")])]>
               (fs (world s)))
            (world s)).

Definition other_config : pyval :=
  PDict [("storage_file", PStr "ledger.json")].

(** * Properties of the ledger *)

(** ** The readers of strings, on sample inputs *)

Example strip_label : PyStr.strip "  March 2025 " = "March 2025".
Proof. reflexivity. Qed.

Example strip_blank : PyStr.strip "   " = "".
Proof. reflexivity. Qed.

Example split_key :
  PyStr.split_once "_" "Chumz_Chumz Monthly Savings"
  = Some ("Chumz", "Chumz Monthly Savings").
Proof. reflexivity. Qed.

Example float_zero : PyFloat.of_string "0" = Some PyFloat.zero.
Proof. reflexivity. Qed.

Example float_minus_five :
  PyFloat.of_string "-5"
  = Some (SpecFloat.S754_finite true 5629499534213120 (-50)).
Proof. reflexivity. Qed.

Example float_tenth :
  PyFloat.of_string "0.1"
  = Some (SpecFloat.S754_finite false 7205759403792794 (-56)).
Proof. vm_compute. reflexivity. Qed.

Example float_padded :
  PyFloat.of_string " 1_000.5e-1 "
  = Some (SpecFloat.S754_finite false 7040392854975283 (-46)).
Proof. vm_compute. reflexivity. Qed.

Example float_nan : PyFloat.of_string "NaN" = Some SpecFloat.S754_nan.
Proof. reflexivity. Qed.

Example float_abc : PyFloat.of_string "abc" = None.
Proof. reflexivity. Qed.

Example float_empty : PyFloat.of_string "" = None.
Proof. reflexivity. Qed.

Example float_dangling_exponent : PyFloat.of_string "1e" = None.
Proof. reflexivity. Qed.

(** ** Running the methods *)

(** Unfolds the monad's operations and the field accessors. *)
Ltac run :=
  cbv beta delta [mbind mret M_bind M_ret Res_bind Res_ret raise lift get_self
                  get_world modify_self modify_world try_except
                  logger.info logger.error now_isoformat read_json write_json
                  path_exists View.show_info View.show_error];
  cbn beta iota zeta delta
      [fst snd model world storage_file months undo_stack redo_stack
       fs write_faults log clock ticks gui table_fault log_file_after
       set_months set_undo_stack set_redo_stack set_fs add_log add_gui tick
       deepcopy].

(** A line of the log changes no other file. *)
Lemma append_line_other r w p :
  p <> LOG_FILE -> append_line r w !! p = fs w !! p.
Proof. intros H. apply lookup_insert_ne. congruence. Qed.

Section SaveData.
Variable s : State.

Lemma save_data_ok :
  write_faults (world s) !! storage_file (model s) = None ->
  Model.save_data s =
    (Ok tt,
     mkState (model s)
       (add_log (mkLogRecord INFO "Data saved to %s"
                   [AStr (storage_file (model s))])
          (set_fs (<[storage_file (model s) :=
                       JsonFile (PList (map asdict (months (model s))))]>
                     (fs (world s)))
                  (world s)))).
Proof. intros E. unfold Model.save_data. run. rewrite E. reflexivity. Qed.

Lemma save_data_fault f :
  write_faults (world s) !! storage_file (model s) = Some f ->
  exists w',
    Model.save_data s = (Ok tt, mkState (model s) w') /\
    log w' = log (world s) ++ [save_failed_record (fault_exn f)] /\
    write_faults w' = write_faults (world s).
Proof.
  intros E. unfold Model.save_data. run. rewrite E.
  destruct f; run; eexists; split; try reflexivity; split; reflexivity.
Qed.

Lemma save_data_total :
  exists w', Model.save_data s = (Ok tt, mkState (model s) w').
Proof.
  destruct (write_faults (world s) !! storage_file (model s)) eqn:E.
  - destruct (save_data_fault _ E) as (w' & H & _). eauto.
  - rewrite (save_data_ok E). eauto.
Qed.
End SaveData.

Lemma add_month_eq md s :
  Model.add_month md s =
    Model.save_data
      (mkState (appended md (model s))
               (add_log (info_record "Added month data for %s"
                                     [AVal (month md)])
                        (world s))).
Proof. reflexivity. Qed.

Lemma add_month_run md s :
  exists w',
    Model.add_month md s = (Ok tt, mkState (appended md (model s)) w').
Proof. rewrite add_month_eq. apply save_data_total. Qed.

Lemma list_pop_snoc {A} (l : list A) x : list_pop (l ++ [x]) = Ok (x, l).
Proof. unfold list_pop. rewrite last_snoc, removelast_last. reflexivity. Qed.

Lemma undo_eq s u snap :
  undo_stack (model s) = u ++ [snap] ->
  Model.undo s =
    Model.save_data
      (mkState (mkModel (storage_file (model s)) snap u
                        (redo_stack (model s) ++ [months (model s)]))
               (add_log (info_record "Undo performed" []) (world s))).
Proof.
  intros E. unfold Model.undo. run.
  destruct (undo_stack (model s)) as [|x l] eqn:Eu;
    [destruct u; discriminate|].
  run. rewrite Eu, E, list_pop_snoc. reflexivity.
Qed.

Lemma redo_eq s r snap :
  redo_stack (model s) = r ++ [snap] ->
  Model.redo s =
    Model.save_data
      (mkState (mkModel (storage_file (model s)) snap
                        (undo_stack (model s) ++ [months (model s)]) r)
               (add_log (info_record "Redo performed" []) (world s))).
Proof.
  intros E. unfold Model.redo. run.
  destruct (redo_stack (model s)) as [|x l] eqn:Eu;
    [destruct r; discriminate|].
  run. rewrite Eu, E, list_pop_snoc. reflexivity.
Qed.

Lemma undo_run s u snap :
  undo_stack (model s) = u ++ [snap] ->
  exists w',
    Model.undo s =
      (Ok tt,
       mkState (mkModel (storage_file (model s)) snap u
                        (redo_stack (model s) ++ [months (model s)]))
               w').
Proof. intros E. rewrite (undo_eq _ _ _ E). apply save_data_total. Qed.

Lemma redo_run s r snap :
  redo_stack (model s) = r ++ [snap] ->
  exists w',
    Model.redo s =
      (Ok tt,
       mkState (mkModel (storage_file (model s)) snap
                        (undo_stack (model s) ++ [months (model s)]) r)
               w').
Proof. intros E. rewrite (redo_eq _ _ _ E). apply save_data_total. Qed.

(** ** Decoding *)

Ltac case_decode :=
  match goal with
  | |- context [Py.getitem ?e ?k] => destruct (Py.getitem e k); run
  | |- context [Model.decode_PortfolioData ?e ?k] =>
      destruct (Model.decode_PortfolioData e k); run
  | |- context [Model.decode_SingleValueData ?e ?k] =>
      destruct (Model.decode_SingleValueData e k); run
  | |- context [Model.decode_etica ?e] =>
      destruct (Model.decode_etica e); run
  end.

Lemma decode_entry_run entry s :
  Model.decode_entry entry s =
    match decode_at (clock (world s) (ticks (world s))) entry with
    | Ok md => (Ok md, tick_state s)
    | Raise e => (Raise e, s)
    end.
Proof.
  unfold decode_at, Model.decode_entry, probe, tick_state.
  destruct entry as [| | | | | |kvs]; try reflexivity.
  run. unfold Py.getattr_get, Py.get.
  destruct (Py.assoc "timestamp" kvs); repeat case_decode; reflexivity.
Qed.

Lemma decode_at_clock now now' entry :
  match decode_at now entry with
  | Ok _ => is_ok (decode_at now' entry) = true
  | Raise e => decode_at now' entry = Raise e
  end.
Proof.
  unfold decode_at, Model.decode_entry, probe.
  destruct entry as [| | | | | |kvs]; try reflexivity.
  run. unfold Py.getattr_get, Py.get.
  destruct (Py.assoc "timestamp" kvs); repeat case_decode; reflexivity.
Qed.

Lemma well_formed_decodes entry now :
  well_formed entry = true -> exists md, decode_at now entry = Ok md.
Proof.
  unfold well_formed. intros H.
  pose proof (decode_at_clock "" now entry) as C.
  destruct (decode_at "" entry); [|discriminate].
  destruct (decode_at now entry); [eauto|discriminate].
Qed.

Lemma decode_asdict now md : decode_at now (asdict md) = Ok md.
Proof.
  destruct md as [m [cf cv] [av aw] [rv rw] [ev ew] [zf zv] t]. reflexivity.
Qed.

(** ** The import loop *)

Lemma append_entry_run entry s :
  Model.append_entry entry s =
    match decode_at (clock (world s) (ticks (world s))) entry with
    | Ok md =>
        (Ok tt,
         mkState (set_months (months (model s) ++ [md]) (model s))
                 (tick (world s)))
    | Raise e => (Raise e, s)
    end.
Proof.
  unfold Model.append_entry. run. rewrite decode_entry_run.
  destruct (decode_at _ entry); reflexivity.
Qed.

Lemma loop_well_formed pre : forall s,
  forallb well_formed pre = true ->
  exists mds w',
    for_each pre Model.append_entry s =
      (Ok tt, mkState (set_months (months (model s) ++ mds) (model s)) w') /\
    Forall2 decoded pre mds.
Proof.
  induction pre as [|entry pre IH]; intros s H.
  - exists [], (world s). split; [|constructor].
    cbn. run. rewrite app_nil_r. destruct s as [[] ?]; reflexivity.
  - cbn in H. apply andb_prop in H as [Hx Hpre].
    destruct (well_formed_decodes entry (clock (world s) (ticks (world s))) Hx)
      as [md Hmd].
    cbn [for_each]. run. rewrite append_entry_run, Hmd.
    edestruct (IH (mkState (set_months (months (model s) ++ [md]) (model s))
                           (tick (world s))) Hpre) as (mds & w' & E & F).
    rewrite E. exists (md :: mds), w'. split.
    + run. rewrite <- app_assoc. reflexivity.
    + constructor; [eexists; eassumption | assumption].
Qed.

Lemma loop_stops pre bad rest e : forall s,
  forallb well_formed pre = true ->
  decode_at "" bad = Raise e ->
  exists mds w',
    for_each (pre ++ bad :: rest) Model.append_entry s =
      (Raise e, mkState (set_months (months (model s) ++ mds) (model s)) w') /\
    Forall2 decoded pre mds.
Proof.
  induction pre as [|entry pre IH]; intros s H Hbad.
  - exists [], (world s). split; [|constructor].
    cbn [app for_each]. run. rewrite append_entry_run.
    pose proof (decode_at_clock "" (clock (world s) (ticks (world s))) bad)
      as C.
    rewrite Hbad in C. rewrite C, app_nil_r.
    destruct s as [[] ?]; reflexivity.
  - cbn in H. apply andb_prop in H as [Hx Hpre].
    destruct (well_formed_decodes entry (clock (world s) (ticks (world s))) Hx)
      as [md Hmd].
    cbn [app for_each]. run. rewrite append_entry_run, Hmd.
    edestruct (IH (mkState (set_months (months (model s) ++ [md]) (model s))
                           (tick (world s))) Hpre Hbad) as (mds & w' & E & F).
    rewrite E. exists (md :: mds), w'. split.
    + run. rewrite <- app_assoc. reflexivity.
    + constructor; [eexists; eassumption | assumption].
Qed.

Lemma loop_asdict mds : forall s,
  exists w',
    for_each (map asdict mds) Model.append_entry s =
      (Ok tt, mkState (set_months (months (model s) ++ mds) (model s)) w').
Proof.
  induction mds as [|md mds IH]; intros s.
  - exists (world s). cbn. run. rewrite app_nil_r.
    destruct s as [[] ?]; reflexivity.
  - cbn [map for_each]. run. rewrite append_entry_run, decode_asdict.
    edestruct (IH (mkState (set_months (months (model s) ++ [md]) (model s))
                           (tick (world s)))) as (w' & E).
    rewrite E. exists w'. run. rewrite <- app_assoc. reflexivity.
Qed.

Lemma loop_model entries : forall s,
  exists ms w',
    snd (for_each entries Model.append_entry s) =
      mkState (set_months ms (model s)) w'.
Proof.
  induction entries as [|entry entries IH]; intros s.
  - exists (months (model s)), (world s). cbn.
    destruct s as [[] ?]; reflexivity.
  - cbn [for_each]. run. rewrite append_entry_run.
    destruct (decode_at _ entry) as [md|e].
    + edestruct (IH (mkState (set_months (months (model s) ++ [md]) (model s))
                             (tick (world s)))) as (ms & w' & E).
      exists ms, w'. destruct (for_each entries _ _) as [[|] s1]; exact E.
    + exists (months (model s)), (world s). destruct s as [[] ?]; reflexivity.
Qed.

Lemma replace_months_model data s :
  exists ms w',
    snd (Model.replace_months data s) = mkState (set_months ms (model s)) w'.
Proof.
  unfold Model.replace_months. run.
  destruct (Py.iter data) as [entries|e]; run.
  - edestruct (loop_model entries
                 (mkState (set_months [] (model s)) (world s)))
      as (ms & w' & E).
    exists ms, w'. rewrite E. reflexivity.
  - exists [], (world s). reflexivity.
Qed.

Lemma import_data_model path s :
  exists ms w',
    snd (Model.import_data path s) = mkState (set_months ms (model s)) w'.
Proof.
  unfold Model.import_data. run.
  destruct (fs (world s) !! path) as [[doc|err]|]; run.
  - destruct (replace_months_model doc s) as (ms & w' & E).
    destruct (Model.replace_months doc s) as [[[]|e] s1];
      cbn in E; subst s1; run; eauto.
  - exists (months (model s)). destruct s as [[] ?]; eauto.
  - exists (months (model s)). destruct s as [[] ?]; eauto.
Qed.

(** ** Export and import *)

Lemma import_of_dump path s mds :
  fs (world s) !! path = Some (JsonFile (PList (map asdict mds))) ->
  exists s',
    Model.import_data path s = (Ok tt, s') /\
    model s' = set_months mds (model s).
Proof.
  intros Hf.
  destruct (Model.import_data path s) as [r s'] eqn:Im.
  revert Im. unfold Model.import_data. run. rewrite Hf. run.
  unfold Model.replace_months. run. cbn [Py.iter].
  edestruct (loop_asdict mds) as [w' E]. rewrite E. run.
  intros [= <- <-]. eauto.
Qed.

Lemma export_data_ok path s :
  write_faults (world s) !! path = None ->
  path <> LOG_FILE ->
  exists w',
    Model.export_data path s = (Ok tt, mkState (model s) w') /\
    fs w' !! path = Some (JsonFile (PList (map asdict (months (model s))))).
Proof.
  intros H Hp. unfold Model.export_data. run. rewrite H. run.
  eexists. split; [reflexivity|]. run.
  rewrite append_line_other by exact Hp. apply lookup_insert_eq.
Qed.

(** C7: when the path can be written (and is not the log file, which
    the line logged after the export would garble), an export succeeds
    and leaves the model as it was; an import from that path into any
    ledger, whatever months and stacks it holds, on a disk where the
    path still holds what the export wrote, then succeeds and makes
    [months] equal to the months exported, record by record and field
    by field, touching nothing else of the importing model. *)
Theorem export_import_round_trip s t path :
  write_faults (world s) !! path = None ->
  path <> LOG_FILE ->
  fs (world t) !! path
  = fs (world (snd (Model.export_data path s))) !! path ->
  exists s1 t',
    Model.export_data path s = (Ok tt, s1) /\
    model s1 = model s /\
    Model.import_data path t = (Ok tt, t') /\
    months (model t') = months (model s) /\
    model t' = set_months (months (model s)) (model t).
Proof.
  intros H Hp Ht.
  destruct (export_data_ok path s H Hp) as (w' & Ex & Hf).
  rewrite Ex in Ht. cbn [snd world] in Ht. rewrite Hf in Ht.
  destruct (import_of_dump path t _ Ht) as (t' & Im & Hm).
  exists (mkState (model s) w'), t'. rewrite Hm.
  repeat split; auto.
Qed.

(** A ledger loaded from a document that uses the legacy key is
    exported; a month is added; the import brings back the ledger
    exported, not the one it finds. *)
Lemma export_import_round_trip_witness :
  (exists s1 t',
     Model.export_data "backup.json" legacy_loaded = (Ok tt, s1) /\
     model s1 = model legacy_loaded /\
     Model.import_data "backup.json" legacy_moved_on = (Ok tt, t') /\
     months (model t') = months (model legacy_loaded) /\
     model t'
     = set_months (months (model legacy_loaded)) (model legacy_moved_on)) /\
  months (model legacy_loaded) = [january] /\
  length (months (model legacy_moved_on)) = 2.
Proof.
  split; [|split; vm_compute; reflexivity].
  apply export_import_round_trip.
  - vm_compute. reflexivity.
  - discriminate.
  - vm_compute. reflexivity.
Defined.

(** C10: when the document is a list whose entries decode up to a
    malformed one, [import_data] raises the decoding error, logs it,
    and leaves in [months] the decoded entries that precede the
    malformed one; the stacks are untouched. *)
Theorem import_keeps_partial_prefix path s pre bad rest e :
  fs (world s) !! path = Some (JsonFile (PList (pre ++ bad :: rest))) ->
  forallb well_formed pre = true ->
  decode_at "" bad = Raise e ->
  exists s',
    Model.import_data path s = (Raise e, s') /\
    Forall2 decoded pre (months (model s')) /\
    undo_stack (model s') = undo_stack (model s) /\
    redo_stack (model s') = redo_stack (model s) /\
    last (log (world s')) = Some (import_failed_record e).
Proof.
  intros Hf Hpre Hbad.
  destruct (Model.import_data path s) as [r s'] eqn:Im.
  revert Im. unfold Model.import_data. run. rewrite Hf. run.
  unfold Model.replace_months. run. cbn [Py.iter].
  edestruct (loop_stops pre bad rest e) as (mds & w' & E & F); eauto.
  rewrite E. run. intros [= <- <-]. eexists. split; [reflexivity|]. run.
  repeat split; try assumption. apply last_snoc.
Qed.

(** Importing a document whose second entry has neither Etica key, over
    a ledger that holds March. *)
Lemma import_keeps_partial_prefix_witness :
  exists s',
    Model.import_data "mixed.json" with_march
    = (Raise (KeyError "investment"), s') /\
    Forall2 decoded [legacy_entry] (months (model s')) /\
    undo_stack (model s') = undo_stack (model with_march) /\
    redo_stack (model s') = redo_stack (model with_march) /\
    last (log (world s'))
    = Some (import_failed_record (KeyError "investment")).
Proof.
  apply (import_keeps_partial_prefix "mixed.json" with_march
           [legacy_entry] broken_entry [legacy_entry]).
  - vm_compute. reflexivity.
  - reflexivity.
  - reflexivity.
Defined.

(** The ledger then holds January, not the March it held before. *)
Lemma partial_import_replaces_months :
  months (model (snd (Model.import_data "mixed.json" with_march))) = [january]
  /\ months (model with_march) <> [january].
Proof. vm_compute. split; [reflexivity | discriminate]. Qed.

(** A required key that is missing is a malformed entry as well. *)
Lemma missing_month_is_malformed :
  decode_at "" (PDict [("chumz", no_fields)]) = Raise (KeyError "month").
Proof. reflexivity. Qed.


(** ** Validation and the add path *)

Lemma parses_true raw : parses raw = true <-> is_Some (PyFloat.of_string raw).
Proof. unfold parses. apply bool_decide_eq_true. Qed.

Lemma parses_false raw : parses raw = false <-> PyFloat.of_string raw = None.
Proof.
  unfold parses. rewrite bool_decide_eq_false.
  destruct (PyFloat.of_string raw); split; intros H;
    try discriminate; try reflexivity.
  - destruct H. eauto.
  - intros [? [=]].
Qed.

Lemma validate_numeric_field_cases raw name :
  (exists x, Controller.validate_numeric_field raw name = Ok x /\
             PyFloat.of_string raw = Some x /\ parses raw = true)
  \/ (Controller.validate_numeric_field raw name
      = Raise (InvalidNumber name raw)
      /\ parses raw = false).
Proof.
  unfold Controller.validate_numeric_field.
  destruct (PyFloat.of_string raw) as [x|] eqn:E.
  - left. exists x. repeat split. apply parses_true. rewrite E. eauto.
  - right. split; [reflexivity|]. apply parses_false, E.
Qed.

Lemma validate_fields_cases items :
  (exists kvs, Controller.validate_fields items = Ok kvs /\
               validated items kvs /\
               Forall (fun fv => parses (snd fv) = true) items)
  \/ (exists name raw, In (name, raw) items /\ parses raw = false /\
        Controller.validate_fields items = Raise (InvalidNumber name raw)).
Proof.
  induction items as [|[name raw] items IH].
  - left. exists []. repeat constructor.
  - cbn [Controller.validate_fields].
    unfold Controller.validate_numeric_field.
    destruct (PyFloat.of_string raw) as [x|] eqn:E; run.
    + destruct IH as [(kvs & Hv & Hk & Hp)|(n & r & Hin & Hp & Hv)];
        rewrite Hv.
      * left. exists ((name, PFloat x) :: kvs).
        split; [reflexivity|]. split.
        -- constructor; [|exact Hk]. split; [reflexivity|].
           exists x. auto.
        -- constructor; [|exact Hp]. apply parses_true. cbn. rewrite E. eauto.
      * right. exists n, r. repeat split; auto. right. exact Hin.
    + right. exists name, raw. repeat split; [left; reflexivity|].
      apply parses_false, E.
Qed.

Lemma after_validation md text s :
  exists r w',
    (Model.add_month md;;
     View.show_info text;;
     self ← get_self;
     View.update_summary_table (months self)) s
    = (r, mkState (appended md (model s)) w').
Proof.
  run. destruct (add_month_run md s) as [w' E]. rewrite E. run.
  unfold View.update_summary_table. run.
  destruct (table_fault _ _); run; eauto.
Qed.

Lemma add_month_data_try_cases data s :
  let label := PyStr.strip (default "" (data_month data)) in
  (label = "" /\
   Controller.add_month_data_try data s = (Raise EmptyMonthLabel, s))
  \/ (label <> "" /\
      exists name raw,
        In (name, raw) (raw_fields data) /\ parses raw = false /\
        Controller.add_month_data_try data s
        = (Raise (InvalidNumber name raw), s))
  \/ (label <> "" /\
      Forall (fun fv => parses (snd fv) = true) (raw_fields data) /\
      exists md r w',
        Controller.add_month_data_try data s
        = (r, mkState (appended md (model s)) w') /\
        built_from data md).
Proof.
  intros label. unfold Controller.add_month_data_try. fold label.
  destruct (String.eqb label "") eqn:El.
  { left. apply String.eqb_eq in El. split; [exact El|]. reflexivity. }
  apply String.eqb_neq in El. right.
  unfold raw_fields. run.
  destruct (validate_fields_cases (default [] (data_Chumz data)))
    as [(ck & -> & Hck & Hcp)|(n & r & Hin & Hp & ->)]; run;
    [|left; split; [exact El|]; exists n, r; repeat split; auto;
      apply in_or_app; auto].
  destruct (validate_numeric_field_cases (default "0" (data_Cash data)) "Cash")
    as [(xa & -> & Ha & Hap)|[-> Hp]]; run;
    [|left; split; [exact El|]; eexists _, _; repeat split; eauto;
      apply in_or_app; right; cbn; auto].
  destruct (validate_numeric_field_cases (default "0" (data_Crypto data))
              "Crypto")
    as [(xr & -> & Hr & Hrp)|[-> Hp]]; run;
    [|left; split; [exact El|]; eexists _, _; repeat split; eauto;
      apply in_or_app; right; cbn; auto].
  destruct (validate_numeric_field_cases (default "0" (data_Etica data))
              "Etica Investment")
    as [(xe & -> & He & Hep)|[-> Hp]]; run;
    [|left; split; [exact El|]; eexists _, _; repeat split; eauto;
      apply in_or_app; right; cbn; auto].
  destruct (validate_fields_cases (default [] (data_Ziidi data)))
    as [(zk & -> & Hzk & Hzp)|(n & r & Hin & Hp & ->)]; run;
    [|left; split; [exact El|]; exists n, r; repeat split; auto;
      apply in_or_app; right; cbn; auto].
  right. split; [exact El|]. split.
  { apply Forall_app. split; [exact Hcp|].
    repeat (constructor; [assumption|]). exact Hzp. }
  match goal with
  | |- context [Model.add_month ?md] =>
      destruct (after_validation md
                  ("Data for " ++ label ++ " added successfully!")%string
                  (mkState (model s) (tick (world s)))) as (r & w' & E);
      exists md
  end.
  revert E. run. intros E. rewrite E. exists r, w'. split; [reflexivity|].
  unfold built_from, validated_scalar. cbn.
  repeat split; eauto.
Qed.

Lemma add_month_data_run data s :
  Controller.add_month_data data s =
    match Controller.add_month_data_try data s with
    | (Ok a, s1) => (Ok a, s1)
    | (Raise e, s1) =>
        (Ok tt,
         mkState (model s1)
                 (add_gui (ShowError (str_exn e))
                          (add_log (error_record e) (world s1))))
    end.
Proof.
  unfold Controller.add_month_data. run.
  destruct (Controller.add_month_data_try data s) as [[[]|e] s1]; reflexivity.
Qed.

Lemma view_add_month_data month_text typed s :
  ViewCommands.add_month_data (ViewCommands.form month_text typed) s =
    Controller.add_month_data (form_data month_text typed) s.
Proof. reflexivity. Qed.

Lemma validated_names items kvs :
  validated items kvs -> map fst kvs = map fst items.
Proof.
  induction 1 as [|[n r] [k v] items kvs [Hk _] _ IH]; [reflexivity|].
  cbn in *. congruence.
Qed.

(** C5: [add_month_data] never raises.  With a label that is empty
    once stripped it stops with "Month label cannot be empty."; with a
    label and some raw field that is not a number it stops with
    "Invalid number for ..." on one such field; in both cases the state
    is untouched when the exception is raised and the ledger is
    unchanged afterwards.  With a label and only numeric fields exactly
    one record, built from the parsed values, is appended. *)
Theorem add_month_data_all_or_nothing data s :
  let label := PyStr.strip (default "" (data_month data)) in
  let s' := snd (Controller.add_month_data data s) in
  fst (Controller.add_month_data data s) = Ok tt /\
  (label = "" ->
   Controller.add_month_data_try data s = (Raise EmptyMonthLabel, s) /\
   model s' = model s /\
   last (gui (world s')) = Some (ShowError (str_exn EmptyMonthLabel))) /\
  (label <> "" ->
   Exists (fun fv => parses (snd fv) = false) (raw_fields data) ->
   exists name raw,
     In (name, raw) (raw_fields data) /\ parses raw = false /\
     Controller.add_month_data_try data s
     = (Raise (InvalidNumber name raw), s) /\
     model s' = model s /\
     last (gui (world s'))
     = Some (ShowError (str_exn (InvalidNumber name raw)))) /\
  (label <> "" ->
   Forall (fun fv => parses (snd fv) = true) (raw_fields data) ->
   exists md,
     months (model s') = months (model s) ++ [md] /\
     undo_stack (model s') = undo_stack (model s) ++ [months (model s)] /\
     redo_stack (model s') = [] /\
     built_from data md).
Proof.
  intros label s'. subst s'. rewrite add_month_data_run.
  destruct (add_month_data_try_cases data s)
    as [[El E]
       |[(El & n & r & Hin & Hp & E)
        |(El & Hall & md & res & w' & E & B)]];
    fold label in El; rewrite E.
  - split; [reflexivity|]. split; [|split]; try (intros; contradiction).
    intros _. run. repeat split. apply last_snoc.
  - split; [reflexivity|]. split; [intros; contradiction|]. split.
    + intros _ _. exists n, r. run. repeat split; auto. apply last_snoc.
    + intros _ Hall. exfalso.
      rewrite List.Forall_forall in Hall. specialize (Hall _ Hin). cbn in Hall.
      congruence.
  - split; [destruct res as [[]|]; reflexivity|].
    split; [intros; contradiction|]. split.
    + intros _ Hex. exfalso.
      apply List.Exists_exists in Hex as ([n r] & Hin & Hp).
      rewrite List.Forall_forall in Hall. specialize (Hall _ Hin). cbn in *.
      congruence.
    + intros _ _. exists md. destruct res; run; auto.
Qed.

(** A form with a label and every field left empty (read as "0"). *)
Lemma add_month_data_all_or_nothing_witness :
  exists md,
    months (model (snd (Controller.add_month_data
                          (form_data "March 2025" (fun _ => "")) started)))
    = months (model started) ++ [md] /\
    value (cash md) = PFloat PyFloat.zero.
Proof.
  destruct (add_month_data_all_or_nothing
              (form_data "March 2025" (fun _ => "")) started)
    as (_ & _ & _ & H).
  destruct H as (md & Hm & _ & _ & B).
  - vm_compute. discriminate.
  - repeat (constructor; [reflexivity|]). constructor.
  - exists md. split; [exact Hm|].
    destruct B as (_ & _ & (x & -> & Hx) & _).
    vm_compute in Hx. injection Hx as <-. reflexivity.
Defined.

Lemma blank_label_is_rejected :
  Controller.add_month_data_try (form_data "   " (fun _ => "1")) started
  = (Raise EmptyMonthLabel, started).
Proof. reflexivity. Qed.

Lemma abc_is_rejected :
  Controller.add_month_data_try
    (form_data "March 2025"
       (fun key => if String.eqb key "Cash_Cash" then "abc" else "7"))
    started
  = (Raise (InvalidNumber "Cash" "abc"), started).
Proof. reflexivity. Qed.


Lemma stored_fields_names typed p v :
  stored_fields typed p v -> field_names v = schema p.
Proof.
  intros (kvs & -> & H). cbn. rewrite (validated_names _ _ H).
  rewrite map_map. cbn. apply map_id.
Qed.

(** C6 (as amended): an add through the form either leaves the ledger
    as it was or appends one record whose Chumz and Ziidi field names
    are exactly the schema's and whose values are the floats that
    [float()] returns for the texts typed (or for "0"), whatever their
    sign. *)
Theorem add_path_schema_and_values month_text typed s :
  let s' := snd (run_command (AddMonth month_text typed) s) in
  model s' = model s \/
  exists md,
    months (model s') = months (model s) ++ [md] /\
    field_names (fields (chumz md)) = schema "Chumz" /\
    field_names (fields (ziidi md)) = schema "Ziidi" /\
    stored_fields typed "Chumz" (fields (chumz md)) /\
    validated_scalar (raw_text typed "Cash_Cash") (value (cash md)) /\
    validated_scalar (raw_text typed "Crypto_Crypto") (value (crypto md)) /\
    validated_scalar (raw_text typed "Etica_Etica Investment")
                     (value (etica md)) /\
    stored_fields typed "Ziidi" (fields (ziidi md)).
Proof.
  cbn [run_command]. rewrite view_add_month_data, add_month_data_run.
  destruct (add_month_data_try_cases (form_data month_text typed) s)
    as [[_ E]|[(_ & n & r & _ & _ & E)|(_ & _ & md & res & w' & E & B)]];
    rewrite E; [left; reflexivity | left; reflexivity |].
  right. exists md.
  destruct B as (_ & Hc & Ha & Hr & He & Hz). cbn in Hc, Ha, Hr, He, Hz.
  assert (Sc : stored_fields typed "Chumz" (fields (chumz md))) by exact Hc.
  assert (Sz : stored_fields typed "Ziidi" (fields (ziidi md))) by exact Hz.
  split; [destruct res; reflexivity|].
  split; [apply stored_fields_names with typed; exact Sc|].
  split; [apply stored_fields_names with typed; exact Sz|].
  repeat split; assumption.
Qed.

(** C6 as stated fails: typing -5 for Cash stores -5.0. *)
Lemma negative_cash_is_stored :
  exists md,
    months (model (snd (run_command (AddMonth "March 2025" typed_debt)
                                    started)))
    = [md] /\
    field_names (fields (chumz md)) = schema "Chumz" /\
    field_names (fields (ziidi md)) = schema "Ziidi" /\
    value (cash md) = PFloat (PyFloat.of_decimal true 5 0) /\
    value_nonneg (value (cash md)) = false /\
    values_nonneg md = false.
Proof.
  eexists. split; [vm_compute; reflexivity|]. vm_compute. auto.
Qed.

(** ** Controller wrappers *)

Lemma controller_undo_run s :
  fst (Controller.undo s) = Ok tt /\
  model (snd (Controller.undo s)) = model (snd (Model.undo s)).
Proof.
  unfold Controller.undo. run.
  destruct (Model.undo s) as [[[]|e] s1]; run; [|auto].
  unfold View.update_summary_table. run.
  destruct (table_fault _ _); run; auto.
Qed.

Lemma controller_redo_run s :
  fst (Controller.redo s) = Ok tt /\
  model (snd (Controller.redo s)) = model (snd (Model.redo s)).
Proof.
  unfold Controller.redo. run.
  destruct (Model.redo s) as [[[]|e] s1]; run; [|auto].
  unfold View.update_summary_table. run.
  destruct (table_fault _ _); run; auto.
Qed.

Lemma controller_import_run path s :
  fst (Controller.import_data path s) = Ok tt /\
  (model (snd (Controller.import_data path s)) = model s \/
   model (snd (Controller.import_data path s))
   = model (snd (Model.import_data path s))).
Proof.
  unfold Controller.import_data.
  destruct (String.eqb path ""); [auto|]. run.
  destruct (Model.import_data path s) as [[[]|e] s1]; run; [|auto].
  unfold View.update_summary_table. run.
  destruct (table_fault _ _); run; auto.
Qed.

(** ** Undo and redo *)

(** C8: [undo] with an empty [undo_stack] raises "Nothing to undo." and
    leaves the whole state, hence [months] and both stacks, as it was;
    [redo] with an empty [redo_stack] raises "Nothing to redo." and
    leaves the state as it was.  The controller shows the message and
    the ledger is unchanged. *)
Theorem undo_redo_on_empty_stack storage ms u r w :
  let no_undo := mkState (mkModel storage ms [] r) w in
  let no_redo := mkState (mkModel storage ms u []) w in
  Model.undo no_undo = (Raise NothingToUndo, no_undo) /\
  Model.redo no_redo = (Raise NothingToRedo, no_redo) /\
  Controller.undo no_undo
  = (Ok tt, mkState (model no_undo)
                    (add_gui (ShowError "Nothing to undo.") w)) /\
  Controller.redo no_redo
  = (Ok tt, mkState (model no_redo)
                    (add_gui (ShowError "Nothing to redo.") w)).
Proof. repeat split. Qed.

(** C3: with a non-empty [undo_stack], [undo] and then [redo] both
    succeed and give back the [months] held before the undo (equal as
    values: the list put back is the copy pushed by [undo]); the stacks
    are restored as well.  The same holds through the controller. *)
Theorem undo_then_redo_restores_months s :
  undo_stack (model s) <> [] ->
  exists s1 s2,
    Model.undo s = (Ok tt, s1) /\
    Model.redo s1 = (Ok tt, s2) /\
    months (model s2) = months (model s) /\
    model s2 = model s /\
    months (model (snd (Controller.redo (snd (Controller.undo s)))))
    = months (model s).
Proof.
  intros H. destruct (exists_last H) as (u & snap & Eu).
  destruct (undo_run s u snap Eu) as [w1 E1].
  set (s1 := mkState _ w1) in E1.
  destruct (redo_run s1 (redo_stack (model s)) (months (model s)) eq_refl)
    as [w2 E2].
  exists s1. eexists. split; [exact E1|]. split; [exact E2|].
  split; [reflexivity|]. split.
  - cbn. rewrite <- Eu. destruct s as [[] ?]; reflexivity.
  - destruct (controller_undo_run s) as [_ Hu].
    destruct (controller_redo_run (snd (Controller.undo s))) as [_ Hr].
    rewrite Hr. rewrite E1 in Hu. cbn [snd] in Hu.
    destruct (redo_run (snd (Controller.undo s)) (redo_stack (model s))
                (months (model s))) as [w3 E3].
    { rewrite Hu. reflexivity. }
    rewrite E3. cbn. reflexivity.
Qed.

Lemma undo_then_redo_restores_months_witness :
  exists s1 s2,
    Model.undo with_march = (Ok tt, s1) /\
    Model.redo s1 = (Ok tt, s2) /\
    months (model s2) = months (model with_march) /\
    model s2 = model with_march /\
    months (model (snd (Controller.redo (snd (Controller.undo with_march)))))
    = months (model with_march).
Proof.
  apply undo_then_redo_restores_months. vm_compute. discriminate.
Defined.


(** ** Failing saves *)

(** C2: when writing the backing file fails, [add_month] still returns
    normally, the record stays appended and the snapshot stays pushed,
    and the failure is logged as "Save data failed"; likewise for
    [undo] and [redo]. *)
Theorem save_failure_keeps_mutation s f :
  write_faults (world s) !! storage_file (model s) = Some f ->
  (forall md, exists s',
      Model.add_month md s = (Ok tt, s') /\
      months (model s') = months (model s) ++ [md] /\
      undo_stack (model s') = undo_stack (model s) ++ [months (model s)] /\
      last (log (world s')) = Some (save_failed_record (fault_exn f))) /\
  (forall u snap, undo_stack (model s) = u ++ [snap] -> exists s',
      Model.undo s = (Ok tt, s') /\
      months (model s') = snap /\
      undo_stack (model s') = u /\
      redo_stack (model s') = redo_stack (model s) ++ [months (model s)] /\
      last (log (world s')) = Some (save_failed_record (fault_exn f))) /\
  (forall r snap, redo_stack (model s) = r ++ [snap] -> exists s',
      Model.redo s = (Ok tt, s') /\
      months (model s') = snap /\
      redo_stack (model s') = r /\
      undo_stack (model s') = undo_stack (model s) ++ [months (model s)] /\
      last (log (world s')) = Some (save_failed_record (fault_exn f))).
Proof.
  intros Hf. split; [|split].
  - intros md. rewrite add_month_eq.
    match goal with
    | |- context [Model.save_data ?S] =>
        destruct (save_data_fault S f Hf) as (w' & E & L & _)
    end.
    rewrite E. eexists. split; [reflexivity|]. cbn. rewrite L.
    repeat split. apply last_snoc.
  - intros u snap Eu. rewrite (undo_eq _ _ _ Eu).
    match goal with
    | |- context [Model.save_data ?S] =>
        destruct (save_data_fault S f Hf) as (w' & E & L & _)
    end.
    rewrite E. eexists. split; [reflexivity|]. cbn. rewrite L.
    repeat split. apply last_snoc.
  - intros r snap Er. rewrite (redo_eq _ _ _ Er).
    match goal with
    | |- context [Model.save_data ?S] =>
        destruct (save_data_fault S f Hf) as (w' & E & L & _)
    end.
    rewrite E. eexists. split; [reflexivity|]. cbn. rewrite L.
    repeat split. apply last_snoc.
Qed.

(** Adding January on a disk that refuses the backing file. *)
Lemma save_failure_keeps_mutation_witness :
  exists s',
    Model.add_month january (read_only with_march) = (Ok tt, s') /\
    months (model s') = months (model with_march) ++ [january] /\
    undo_stack (model s')
    = undo_stack (model with_march) ++ [months (model with_march)] /\
    last (log (world s')) = Some (save_failed_record denied).
Proof.
  destruct (save_failure_keeps_mutation (read_only with_march)
              (OpenFails denied)) as [H _].
  - vm_compute. reflexivity.
  - exact (H january).
Defined.


(** ** The legacy Etica key *)

Lemma decode_etica_resolves entry sv :
  Model.decode_etica entry = Ok sv -> etica_resolves_to entry (value sv).
Proof.
  unfold Model.decode_etica, etica_resolves_to. run.
  destruct (Py.getitem entry "etica") as [e|]; [|discriminate]. run.
  destruct e as [| | | |text|items|kvs]; try discriminate.
  - cbn. destruct (Py.is_substring "value" text); discriminate.
  - cbn. destruct (existsb _ items); discriminate.
  - cbn [Py.contains]. run. unfold Py.getitem, Py.get.
    destruct (Py.assoc "value" kvs) as [v|] eqn:Ev.
    + rewrite bool_decide_eq_true_2 by eauto.
      destruct (Py.assoc "version" kvs); intros [= <-]; eexists;
        (split; [reflexivity|]); rewrite Ev; reflexivity.
    + rewrite bool_decide_eq_false_2 by (intros [? [=]]).
      destruct (Py.assoc "investment" kvs) as [v|] eqn:Ei; [|discriminate].
      destruct (Py.assoc "version" kvs); intros [= <-]; eexists;
        (split; [reflexivity|]); rewrite Ev; exact Ei.
Qed.

Lemma decode_at_etica now entry md :
  decode_at now entry = Ok md -> Model.decode_etica entry = Ok (etica md).
Proof.
  unfold decode_at, Model.decode_entry, probe.
  destruct entry as [| | | | | |kvs]; try discriminate.
  run. unfold Py.getattr_get, Py.get.
  destruct (Py.assoc "timestamp" kvs); repeat case_decode;
    try discriminate; intros [= <-]; reflexivity.
Qed.

Lemma decoded_etica_resolved entries mds :
  Forall2 decoded entries mds -> etica_resolved entries mds.
Proof.
  induction 1 as [|entry md entries mds [now Hd] _ IH]; constructor;
    [|exact IH].
  apply (decode_etica_resolves entry (etica md)), (decode_at_etica now), Hd.
Qed.

Lemma asdict_emits_values mds :
  emits_values mds (JsonFile (PList (map asdict mds))).
Proof.
  eexists. split; [reflexivity|].
  induction mds as [|md mds IH]; constructor; [|exact IH].
  eexists. repeat split.
Qed.

(** C4: loading at construction and importing both resolve the Etica
    scalar of every entry as the key [value] if present, otherwise the
    key [investment]; saving and exporting write, for every record, the
    scalar under [value] and no key [investment]. *)
Theorem etica_value_resolution s :
  (forall path entries,
      fs (world s) !! path = Some (JsonFile (PList entries)) ->
      forallb well_formed entries = true ->
      (exists s',
          Model.init path (world s) = (Ok tt, s') /\
          etica_resolved entries (months (model s'))) /\
      (exists s',
          Model.import_data path s = (Ok tt, s') /\
          etica_resolved entries (months (model s')))) /\
  (write_faults (world s) !! storage_file (model s) = None ->
   storage_file (model s) <> LOG_FILE ->
   exists doc,
     fs (world (snd (Model.save_data s))) !! storage_file (model s)
     = Some doc /\
     emits_values (months (model s)) doc) /\
  (forall path,
      write_faults (world s) !! path = None ->
      path <> LOG_FILE ->
      exists doc,
        fs (world (snd (Model.export_data path s))) !! path = Some doc /\
        emits_values (months (model s)) doc).
Proof.
  split; [|split].
  - intros path entries Hf Hw. split.
    + unfold Model.init, Model.load_data. run.
      rewrite bool_decide_eq_true_2 by (rewrite Hf; eauto). run.
      rewrite Hf. run. unfold Model.replace_months. run. cbn [Py.iter].
      edestruct (loop_well_formed entries) as (mds & w' & E & F);
        [exact Hw|].
      rewrite E. run. eexists. split; [reflexivity|].
      apply decoded_etica_resolved, F.
    + unfold Model.import_data. run. rewrite Hf. run.
      unfold Model.replace_months. run. cbn [Py.iter].
      edestruct (loop_well_formed entries) as (mds & w' & E & F);
        [exact Hw|].
      rewrite E. run. eexists. split; [reflexivity|].
      apply decoded_etica_resolved, F.
  - intros Hf Hp. rewrite (save_data_ok s Hf). eexists. split.
    + run. rewrite append_line_other by exact Hp. apply lookup_insert_eq.
    + apply asdict_emits_values.
  - intros path Hf Hp.
    destruct (export_data_ok path s Hf Hp) as (w' & -> & E).
    eexists. split; [exact E | apply asdict_emits_values].
Qed.

(** A file holding one entry whose Etica object has only
    [investment: 500] loads as one record with the Etica scalar 500,
    and that record is exported with [value: 500]. *)
Lemma etica_value_resolution_witness :
  (exists s' md,
     Model.init "legacy.json" (world started) = (Ok tt, s') /\
     months (model s') = [md] /\
     value (etica md) = PInt 500) /\
  (exists doc,
     fs (world (snd (Model.export_data "backup.json" legacy_loaded)))
       !! "backup.json" = Some doc /\
     emits_values (months (model legacy_loaded)) doc).
Proof.
  split.
  - destruct (etica_value_resolution started) as [R _].
    destruct (R "legacy.json" [legacy_entry]) as [(s' & E & F) _].
    + vm_compute. reflexivity.
    + reflexivity.
    + inversion F as [|entry md es mds (kvs & Hk & Hv) Hrest]; subst.
      inversion Hrest; subst. exists s', md.
      split; [exact E|]. split; [symmetry; assumption|].
      injection Hk as <-. symmetry. injection Hv as ->. reflexivity.
  - destruct (etica_value_resolution legacy_loaded) as (_ & _ & W).
    apply W; [vm_compute; reflexivity | discriminate].
Defined.

(** Loading a file with one such record, and writing it again. *)
Lemma legacy_investment_500 :
  exists md,
    months (model legacy_loaded) = [md] /\
    value (etica md) = PInt 500 /\
    Py.getitem (asdict md) "etica"
    = Ok (PDict [("value", PInt 500); ("version", PInt 1)]).
Proof. eexists. split; [vm_compute; reflexivity|]. split; reflexivity. Qed.

(** ** Loading at construction *)

(** C9: constructing the model never raises.  A missing file gives an
    empty ledger and logs no error; a file that cannot be read or
    parsed, or whose document cannot be decoded, gives an empty ledger
    with the error logged. *)
Theorem load_at_construction_never_raises storage w :
  let fresh := mkState (mkModel storage [] [] []) w in
  let s' := snd (Model.init storage w) in
  fst (Model.init storage w) = Ok tt /\
  match fs w !! storage with
  | None =>
      months (model s') = [] /\
      log (world s')
      = log w ++ [info_record
                    "No storage file found. Starting with empty data." []]
  | Some (BadFile e) =>
      months (model s') = [] /\
      log (world s') = log w ++ [load_failed_record e]
  | Some (JsonFile doc) =>
      match Model.replace_months doc fresh with
      | (Ok _, s1) => months (model s') = months (model s1)
      | (Raise e, s1) =>
          months (model s') = [] /\
          last (log (world s')) = Some (load_failed_record e)
      end
  end.
Proof.
  intros fresh s'. subst fresh s'. unfold Model.init, Model.load_data.
  run. destruct (fs w !! storage) as [[doc|e]|] eqn:E.
  - rewrite bool_decide_eq_true_2 by eauto. run. rewrite E. run.
    destruct (Model.replace_months doc _) as [[[]|e] s1]; run.
    + split; reflexivity.
    + repeat split. apply last_snoc.
  - rewrite bool_decide_eq_true_2 by eauto. run. rewrite E. run.
    repeat split.
  - rewrite bool_decide_eq_false_2 by (intros [? [=]]). run. repeat split.
Qed.

(** ** Which operations clear the redo stack *)

(** C1 (as amended): [add_month] always succeeds and leaves
    [redo_stack] empty, and so does every add through the form that
    changes the ledger; clearing and importing replace [months] and
    leave [undo_stack] and [redo_stack] as they were. *)
Theorem redo_stack_cleared_by_add_only s :
  (forall md, exists s',
      Model.add_month md s = (Ok tt, s') /\ redo_stack (model s') = []) /\
  (forall month_text typed,
      let s' := snd (run_command (AddMonth month_text typed) s) in
      model s' = model s \/ redo_stack (model s') = []) /\
  (forall confirmed,
      let s' := snd (run_command (ClearAll confirmed) s) in
      (confirmed = true -> months (model s') = []) /\
      undo_stack (model s') = undo_stack (model s) /\
      redo_stack (model s') = redo_stack (model s)) /\
  (forall filepath,
      let s' := snd (run_command (ImportData filepath) s) in
      undo_stack (model s') = undo_stack (model s) /\
      redo_stack (model s') = redo_stack (model s)).
Proof.
  split; [|split; [|split]].
  - intros md. destruct (add_month_run md s) as [w' E]. rewrite E. eauto.
  - intros month_text typed. cbn [run_command].
    rewrite view_add_month_data, add_month_data_run.
    destruct (add_month_data_try_cases (form_data month_text typed) s)
      as [[_ E]|[(_ & n & r & _ & _ & E)|(_ & _ & md & res & w' & E & _)]];
      rewrite E; [left; reflexivity | left; reflexivity |].
    right. destruct res; reflexivity.
  - intros [|]; [|repeat split; discriminate].
    cbn. unfold View.update_summary_table. run.
    destruct (table_fault _ _); repeat split.
  - intros filepath. cbn [run_command].
    destruct (controller_import_run filepath s) as [_ [->| ->]];
      [split; reflexivity|].
    destruct (import_data_model filepath s) as (ms & w' & ->).
    split; reflexivity.
Qed.

(** C1 as stated fails: after an add, an export and an undo, the redo
    stack holds a snapshot, and it still holds it after "New" has
    emptied [months] and after an import has replaced them. *)
Lemma redo_stack_survives_clear_and_import :
  reachable undone /\
  redo_stack (model undone) <> [] /\
  (let s' := snd (run_command (ClearAll true) undone) in
   months (model s') = [] /\ redo_stack (model s') <> []) /\
  (let s' := snd (run_command (ImportData "backup.json") undone) in
   months (model s') <> months (model undone) /\ redo_stack (model s') <> []).
Proof.
  split; [repeat constructor|].
  vm_compute. repeat split; discriminate.
Qed.

(** ** Sequences of adds, undos and redos *)

Lemma adds_run mds : forall s,
  exists w',
    for_each mds Model.add_month s =
      (Ok tt,
       mkState (mkModel (storage_file (model s)) (months (model s) ++ mds)
                  (undo_stack (model s) ++ snapshots (months (model s)) mds)
                  (match mds with
                   | [] => redo_stack (model s)
                   | _ :: _ => []
                   end))
               w').
Proof.
  induction mds as [|md mds IH]; intros s.
  - exists (world s). cbn. rewrite !app_nil_r.
    destruct s as [[] ?]; reflexivity.
  - cbn [for_each snapshots]. run.
    destruct (add_month_run md s) as [w1 E]. rewrite E.
    destruct (IH (mkState (appended md (model s)) w1)) as [w' E'].
    rewrite E'. exists w'. cbn. rewrite <- !app_assoc. cbn.
    destruct mds; reflexivity.
Qed.

Lemma snapshots_length ms mds : length (snapshots ms mds) = length mds.
Proof.
  revert ms. induction mds as [|md mds IH]; intros ms; cbn; [|rewrite IH];
    reflexivity.
Qed.

(** The states a chain of snapshots passes through start at [ms]. *)
Lemma snapshots_head ms mds :
  snapshots ms mds ++ [ms ++ mds]
  = ms :: tl (snapshots ms mds ++ [ms ++ mds]).
Proof.
  destruct mds; cbn; [rewrite app_nil_r|]; reflexivity.
Qed.

Lemma undo_many L : forall s u,
  undo_stack (model s) = u ++ L ->
  exists w',
    repeat_m (length L) Model.undo s =
      (Ok tt,
       mkState (mkModel (storage_file (model s))
                  (hd (months (model s)) L) u
                  (redo_stack (model s)
                     ++ rev (tl (L ++ [months (model s)]))))
               w').
Proof.
  induction L as [|x L IH] using rev_ind; intros s u E.
  - exists (world s). rewrite app_nil_r in E. cbn. rewrite app_nil_r, <- E.
    destruct s as [[] ?]; reflexivity.
  - rewrite length_app, Nat.add_1_r. cbn [repeat_m]. run.
    rewrite app_assoc in E.
    destruct (undo_run s (u ++ L) x E) as [w1 E1]. rewrite E1.
    match type of E1 with
    | _ = (_, ?S) => destruct (IH S u eq_refl) as [w' E']
    end.
    rewrite E'.
    exists w'. cbn [model storage_file months redo_stack].
    assert (H1 : hd x L = hd (months (model s)) (L ++ [x]))
      by (destruct L; reflexivity).
    assert (H2 : (redo_stack (model s) ++ [months (model s)])
                   ++ rev (tl (L ++ [x]))
                 = redo_stack (model s)
                   ++ rev (tl ((L ++ [x]) ++ [months (model s)]))).
    { rewrite <- app_assoc. f_equal.
      destruct L; cbn; rewrite ?rev_app_distr; reflexivity. }
    rewrite H1, H2. reflexivity.
Qed.

Lemma redo_many R : forall s r,
  redo_stack (model s) = r ++ R ->
  exists w',
    repeat_m (length R) Model.redo s =
      (Ok tt,
       mkState (mkModel (storage_file (model s))
                  (hd (months (model s)) R)
                  (undo_stack (model s)
                     ++ rev (tl (R ++ [months (model s)])))
                  r)
               w').
Proof.
  induction R as [|x R IH] using rev_ind; intros s r E.
  - exists (world s). rewrite app_nil_r in E. cbn. rewrite app_nil_r, <- E.
    destruct s as [[] ?]; reflexivity.
  - rewrite length_app, Nat.add_1_r. cbn [repeat_m]. run.
    rewrite app_assoc in E.
    destruct (redo_run s (r ++ R) x E) as [w1 E1]. rewrite E1.
    match type of E1 with
    | _ = (_, ?S) => destruct (IH S r eq_refl) as [w' E']
    end.
    rewrite E'.
    exists w'. cbn [model storage_file months undo_stack].
    assert (H1 : hd x R = hd (months (model s)) (R ++ [x]))
      by (destruct R; reflexivity).
    assert (H2 : (undo_stack (model s) ++ [months (model s)])
                   ++ rev (tl (R ++ [x]))
                 = undo_stack (model s)
                   ++ rev (tl ((R ++ [x]) ++ [months (model s)]))).
    { rewrite <- app_assoc. f_equal.
      destruct R; cbn; rewrite ?rev_app_distr; reflexivity. }
    rewrite H1, H2. reflexivity.
Qed.

(** X1: adding records one after another always succeeds, whatever the
    disk does; months grows by exactly the records added, in the order
    given, and the undo stack grows by one snapshot for each add, the
    snapshot being the ledger just before that add. *)
Theorem adds_append_in_order mds s :
  exists s',
    for_each mds Model.add_month s = (Ok tt, s') /\
    months (model s') = months (model s) ++ mds /\
    length (months (model s')) = length (months (model s)) + length mds /\
    undo_stack (model s')
    = undo_stack (model s) ++ snapshots (months (model s)) mds /\
    length (undo_stack (model s'))
    = length (undo_stack (model s)) + length mds.
Proof.
  destruct (adds_run mds s) as [w' E]. eexists. split; [exact E|]. cbn.
  rewrite !length_app, snapshots_length. auto.
Qed.

(** X2: after n adds, n undos succeed and bring months and the undo stack
    back to what they were before the first add, with n snapshots on the
    redo stack; n redos then succeed and bring the whole model back to
    what it was after the adds. *)
Theorem undo_all_then_redo_all mds s :
  exists s1 s2 s3,
    for_each mds Model.add_month s = (Ok tt, s1) /\
    repeat_m (length mds) Model.undo s1 = (Ok tt, s2) /\
    months (model s2) = months (model s) /\
    undo_stack (model s2) = undo_stack (model s) /\
    length (redo_stack (model s2))
    = length (redo_stack (model s1)) + length mds /\
    repeat_m (length mds) Model.redo s2 = (Ok tt, s3) /\
    model s3 = model s1.
Proof.
  destruct (adds_run mds s) as [w1 E1].
  set (ms := months (model s)) in *. set (u := undo_stack (model s)) in *.
  set (s1 := mkState _ w1) in E1.
  destruct (undo_many (snapshots ms mds) s1 u eq_refl) as [w2 E2].
  rewrite snapshots_length in E2.
  set (s2 := mkState _ w2) in E2.
  destruct (redo_many (rev (tl (snapshots ms mds ++ [ms ++ mds]))) s2
              (redo_stack (model s1)) eq_refl) as [w3 E3].
  assert (Hlen : length (rev (tl (snapshots ms mds ++ [ms ++ mds])))
                 = length mds).
  { rewrite length_rev.
    pose proof (f_equal (@length _) (snapshots_head ms mds)) as H.
    rewrite length_app, snapshots_length in H. cbn in H. lia. }
  rewrite Hlen in E3.
  assert (Hhd : hd (ms ++ mds) (snapshots ms mds) = ms).
  { destruct mds; cbn; [apply app_nil_r | reflexivity]. }
  exists s1, s2. eexists. split; [exact E1|]. split; [exact E2|].
  split; [exact Hhd|]. split; [reflexivity|].
  split; [cbn; rewrite length_app, Hlen; reflexivity|].
  split; [exact E3|].
  cbn [model s1 s2 months undo_stack redo_stack storage_file].
  rewrite Hhd. f_equal.
  - destruct mds as [|md mds]; [cbn; symmetry; apply app_nil_r|].
    cbn [snapshots app tl]. rewrite rev_app_distr. reflexivity.
  - f_equal.
    change (rev (tl (snapshots ms mds ++ [ms ++ mds])) ++ [ms])
      with (rev (ms :: tl (snapshots ms mds ++ [ms ++ mds]))).
    rewrite <- snapshots_head, rev_app_distr. cbn. apply rev_involutive.
Qed.

(** ** What reaches the disk, and what a restart finds *)

Lemma init_of_dump storage w mds :
  fs w !! storage = Some (JsonFile (PList (map asdict mds))) ->
  exists w',
    Model.init storage w = (Ok tt, mkState (mkModel storage mds [] []) w').
Proof.
  intros H. unfold Model.init, Model.load_data. run.
  rewrite bool_decide_eq_true_2 by (rewrite H; eauto). run. rewrite H. run.
  unfold Model.replace_months. run. cbn [Py.iter].
  edestruct (loop_asdict mds) as [w' E]. rewrite E. run. eauto.
Qed.

Lemma save_data_written s s' :
  write_faults (world s) !! storage_file (model s) = None ->
  storage_file (model s) <> LOG_FILE ->
  Model.save_data s = (Ok tt, s') ->
  model s' = model s /\
  fs (world s') !! storage_file (model s)
  = Some (JsonFile (PList (map asdict (months (model s))))).
Proof.
  intros H Hp E. rewrite (save_data_ok s H) in E. injection E as <-.
  split; [reflexivity|]. run.
  rewrite append_line_other by exact Hp. apply lookup_insert_eq.
Qed.

Lemma restarted_of_dump s :
  fs (world s) !! storage_file (model s)
  = Some (JsonFile (PList (map asdict (months (model s))))) ->
  model (restarted s)
  = mkModel (storage_file (model s)) (months (model s)) [] [].
Proof.
  intros H. unfold restarted.
  destruct (init_of_dump _ _ _ H) as [w' ->]. reflexivity.
Qed.

Lemma undo_ok_stack s s' :
  Model.undo s = (Ok tt, s') ->
  exists u snap, undo_stack (model s) = u ++ [snap].
Proof.
  intros H. destruct (undo_stack (model s)) as [|x l] eqn:E.
  - revert H. unfold Model.undo. run. rewrite E. discriminate.
  - destruct (@exists_last _ (x :: l)) as (u & snap & ->); [discriminate|].
    eauto.
Qed.

Lemma redo_ok_stack s s' :
  Model.redo s = (Ok tt, s') ->
  exists r snap, redo_stack (model s) = r ++ [snap].
Proof.
  intros H. destruct (redo_stack (model s)) as [|x l] eqn:E.
  - revert H. unfold Model.redo. run. rewrite E. discriminate.
  - destruct (@exists_last _ (x :: l)) as (r & snap & ->); [discriminate|].
    eauto.
Qed.

(** X3: when the backing file can be written (and is not the log file,
    where the line logged after the save would follow the document), a
    model constructed anew on the same storage file after a successful
    add, undo or redo holds exactly the months the old model held, with
    both stacks empty: the ledger survives a restart, the undo history
    does not. *)
Theorem restart_after_save s s' :
  write_faults (world s) !! storage_file (model s) = None ->
  storage_file (model s) <> LOG_FILE ->
  (exists md, Model.add_month md s = (Ok tt, s')) \/
  Model.undo s = (Ok tt, s') \/ Model.redo s = (Ok tt, s') ->
  model (restarted s')
  = mkModel (storage_file (model s')) (months (model s')) [] [].
Proof.
  intros Hf Hp H. apply restarted_of_dump.
  destruct H as [[md H]|[H|H]].
  - rewrite add_month_eq in H.
    apply save_data_written in H as [-> H];
      [exact H | exact Hf | exact Hp].
  - destruct (undo_ok_stack _ _ H) as (u & snap & E).
    rewrite (undo_eq _ _ _ E) in H.
    apply save_data_written in H as [-> H];
      [exact H | exact Hf | exact Hp].
  - destruct (redo_ok_stack _ _ H) as (r & snap & E).
    rewrite (redo_eq _ _ _ E) in H.
    apply save_data_written in H as [-> H];
      [exact H | exact Hf | exact Hp].
Qed.

Lemma restart_after_save_witness :
  model (restarted (snd (Model.add_month january started)))
  = mkModel "month_data.json" [january] [] [].
Proof.
  apply (restart_after_save started (snd (Model.add_month january started))).
  - vm_compute. reflexivity.
  - discriminate.
  - left. exists january.
    destruct (add_month_run january started) as [w' ->]. reflexivity.
Defined.

Lemma loop_disk entries : forall s,
  fs (world (snd (for_each entries Model.append_entry s))) = fs (world s).
Proof.
  induction entries as [|entry entries IH]; intros s; [reflexivity|].
  cbn [for_each]. run. rewrite append_entry_run.
  destruct (decode_at _ entry) as [md|e]; [|reflexivity].
  match goal with
  | |- context [for_each entries Model.append_entry ?S] =>
      specialize (IH S); destruct (for_each entries Model.append_entry S)
        as [[|] s1]; exact IH
  end.
Qed.

Lemma import_data_disk filepath s p :
  p <> LOG_FILE ->
  fs (world (snd (Model.import_data filepath s))) !! p = fs (world s) !! p.
Proof.
  intros Hp. unfold Model.import_data. run.
  destruct (fs (world s) !! filepath) as [[doc|err]|]; run;
    try (apply append_line_other; exact Hp).
  unfold Model.replace_months. run.
  destruct (Py.iter doc) as [entries|e]; run;
    [|apply append_line_other; exact Hp].
  match goal with
  | |- context [for_each entries Model.append_entry ?S] =>
      pose proof (loop_disk entries S) as H;
      destruct (for_each entries Model.append_entry S) as [[|] s1]; run;
      rewrite append_line_other by exact Hp; cbn in H; rewrite H;
      reflexivity
  end.
Qed.

Lemma clear_all_disk confirmed s :
  fs (world (snd (run_command (ClearAll confirmed) s))) = fs (world s).
Proof.
  destruct confirmed; [|reflexivity]. cbn. unfold View.update_summary_table.
  run. destruct (table_fault _ _); reflexivity.
Qed.

(** X4: 'New' (clear_all) writes no file at all, not even a line of
    the log; 'Import Data' writes nothing but lines of the log: every
    other file is after the command what it was before, whether the
    command succeeds or not. *)
Theorem clear_and_import_do_not_save s :
  (forall confirmed,
      fs (world (snd (run_command (ClearAll confirmed) s))) = fs (world s) /\
      log (world (snd (run_command (ClearAll confirmed) s)))
      = log (world s)) /\
  (forall filepath p,
      p <> LOG_FILE ->
      fs (world (snd (run_command (ImportData filepath) s))) !! p
      = fs (world s) !! p).
Proof.
  split.
  - intros confirmed. split; [apply clear_all_disk|].
    destruct confirmed; [|reflexivity]. cbn.
    unfold View.update_summary_table. run.
    destruct (table_fault _ _); reflexivity.
  - intros filepath p Hp. cbn [run_command]. unfold Controller.import_data.
    destruct (String.eqb filepath ""); [reflexivity|]. run.
    pose proof (import_data_disk filepath s p Hp) as H.
    destruct (Model.import_data filepath s) as [[[]|e] s1]; run; [|exact H].
    unfold View.update_summary_table. run.
    destruct (table_fault _ _); exact H.
Qed.

(** X5: when the backing file holds the current ledger, confirming 'New'
    empties months in memory only; a model constructed anew on the same
    storage file finds the old months again. *)
Theorem restart_after_new_restores_saved s :
  fs (world s) !! storage_file (model s)
  = Some (JsonFile (PList (map asdict (months (model s))))) ->
  months (model (snd (run_command (ClearAll true) s))) = [] /\
  months (model (restarted (snd (run_command (ClearAll true) s))))
  = months (model s).
Proof.
  intros H.
  pose proof (clear_all_disk true s) as Hd.
  set (cleared := snd (run_command (ClearAll true) s)) in *.
  assert (Hm : model cleared = set_months [] (model s)).
  { subst cleared. cbn. unfold View.update_summary_table. run.
    destruct (table_fault _ _); reflexivity. }
  split; [rewrite Hm; reflexivity|].
  unfold restarted. rewrite Hm. cbn [storage_file set_months].
  destruct (init_of_dump (storage_file (model s)) (world cleared)
              (months (model s))) as [w' ->];
    [rewrite Hd; exact H | reflexivity].
Qed.

Lemma restart_after_new_restores_saved_witness :
  months (model (snd (run_command (ClearAll true) with_march))) = [] /\
  months (model (restarted (snd (run_command (ClearAll true) with_march))))
  = months (model with_march).
Proof.
  apply restart_after_new_restores_saved. vm_compute. reflexivity.
Defined.

(** ** Imports *)

(** X6: importing a path that does not hold a readable JSON document
    (missing, or not JSON) raises, logs 'Import failed: ...' last, and
    leaves the whole model as it was: the failure comes before
    months is reset. *)
Theorem import_unreadable_keeps_ledger s filepath :
  (forall doc, fs (world s) !! filepath <> Some (JsonFile doc)) ->
  exists e w',
    Model.import_data filepath s = (Raise e, mkState (model s) w') /\
    last (log w') = Some (import_failed_record e).
Proof.
  intros H. unfold Model.import_data. run.
  destruct (fs (world s) !! filepath) as [[doc|err]|]; run.
  - destruct (H doc eq_refl).
  - eexists _, _. split; [reflexivity|]. apply last_snoc.
  - eexists _, _. split; [reflexivity|]. apply last_snoc.
Qed.

Lemma import_unreadable_keeps_ledger_witness :
  exists e w',
    Model.import_data "nowhere.json" with_march
    = (Raise e, mkState (model with_march) w') /\
    last (log w') = Some (import_failed_record e).
Proof.
  apply import_unreadable_keeps_ledger. intros doc. vm_compute. discriminate.
Defined.

(** X7: importing a list of well-formed entries succeeds, replaces
    months by the decoding of the entries, one record for each entry in
    the same order (the former months are dropped, not extended), and
    logs 'Data imported from <path>' last. *)
Theorem import_well_formed_list s filepath entries :
  fs (world s) !! filepath = Some (JsonFile (PList entries)) ->
  forallb well_formed entries = true ->
  exists s',
    Model.import_data filepath s = (Ok tt, s') /\
    Forall2 decoded entries (months (model s')) /\
    length (months (model s')) = length entries /\
    last (log (world s'))
    = Some (info_record "Data imported from %s" [AStr filepath]).
Proof.
  intros Hf Hw.
  destruct (Model.import_data filepath s) as [r s'] eqn:Im.
  revert Im. unfold Model.import_data. run. rewrite Hf. run.
  unfold Model.replace_months. run. cbn [Py.iter].
  edestruct (loop_well_formed entries) as (mds & w' & E & F); [exact Hw|].
  rewrite E. run. intros [= <- <-]. eexists. split; [reflexivity|]. run.
  split; [exact F|]. split; [symmetry; eapply Forall2_length; exact F|].
  apply last_snoc.
Qed.

Lemma import_well_formed_list_witness :
  exists s',
    Model.import_data "legacy.json" with_march = (Ok tt, s') /\
    Forall2 decoded [legacy_entry] (months (model s')) /\
    length (months (model s')) = length [legacy_entry] /\
    last (log (world s'))
    = Some (info_record "Data imported from %s" [AStr "legacy.json"]).
Proof.
  apply import_well_formed_list; [vm_compute; reflexivity | reflexivity].
Defined.

Lemma append_entry_not_dict entry s :
  (forall kvs, entry <> PDict kvs) ->
  exists e, Model.append_entry entry s = (Raise e, s).
Proof.
  intros H. rewrite append_entry_run.
  destruct entry; try (eexists; reflexivity). destruct (H _ eq_refl).
Qed.

(** X8: importing a JSON document that is not a list leaves months
    empty in every case: iterating it either raises or, for an object
    or a string, yields keys or characters that cannot be decoded. The
    import succeeds exactly when the document iterates to nothing (an
    empty object or an empty string). *)
Theorem import_not_a_list s filepath doc :
  fs (world s) !! filepath = Some (JsonFile doc) ->
  (forall entries, doc <> PList entries) ->
  months (model (snd (Model.import_data filepath s))) = [] /\
  (is_ok (fst (Model.import_data filepath s)) = true
   <-> Py.iter doc = Ok []).
Proof.
  intros Hf Hl. unfold Model.import_data. run. rewrite Hf. run.
  unfold Model.replace_months. run.
  destruct doc as [| | | |text|items|kvs];
    try (split; [reflexivity|]; split; discriminate).
  - destruct text as [|c text]; cbn [Py.iter Py.chars]; run.
    + split; [reflexivity|]. split; reflexivity.
    + cbn [for_each]. run.
      edestruct (append_entry_not_dict (PStr (String c ""))) as [e ->];
        [discriminate|].
      run. split; [reflexivity|]. split; discriminate.
  - destruct (Hl _ eq_refl).
  - destruct kvs as [|[k v] kvs]; cbn [Py.iter map]; run.
    + split; [reflexivity|]. split; reflexivity.
    + cbn [for_each fst]. run.
      edestruct (append_entry_not_dict (PStr k)) as [e ->]; [discriminate|].
      run. split; [reflexivity|]. split; discriminate.
Qed.

Lemma import_not_a_list_witness :
  months (model (snd (Model.import_data "notes.json" (with_notes with_march))))
  = [] /\
  (is_ok (fst (Model.import_data "notes.json" (with_notes with_march))) = true
   <-> Py.iter (PDict [("month", PStr "May 2025")]) = Ok []).
Proof.
  apply import_not_a_list.
  - vm_compute. reflexivity.
  - discriminate.
Defined.

(** ** What the controller lets out *)

Lemma controller_export_run filepath s :
  fst (Controller.export_data filepath s) = Ok tt.
Proof.
  unfold Controller.export_data.
  destruct (String.eqb filepath ""); [reflexivity|]. run.
  destruct (Model.export_data filepath s) as [[[]|e] s1]; reflexivity.
Qed.

(** X9: no controller command lets an exception out: add_month_data
    (also through the form), undo, redo, export and import return
    normally in every state, for every input and whatever the disk or
    the summary table does. *)
Theorem controller_never_raises s :
  (forall data, fst (Controller.add_month_data data s) = Ok tt) /\
  (forall f, fst (ViewCommands.add_month_data f s) = Ok tt) /\
  fst (Controller.undo s) = Ok tt /\
  fst (Controller.redo s) = Ok tt /\
  (forall filepath, fst (Controller.export_data filepath s) = Ok tt) /\
  (forall filepath, fst (Controller.import_data filepath s) = Ok tt).
Proof.
  assert (A : forall data s0, fst (Controller.add_month_data data s0) = Ok tt).
  { intros data s0. rewrite add_month_data_run.
    destruct (Controller.add_month_data_try data s0) as [[[]|e] s1];
      reflexivity. }
  split; [auto|]. split.
  - intros [m es]. unfold ViewCommands.add_month_data. run.
    assert (C : forall es data s0,
               exists data' s1,
                 ViewCommands.collect data es s0 = (Ok data', s1)).
    { clear. induction es as [|[key text] es IH]; intros data s0; cbn.
      - eauto.
      - run. unfold ViewCommands.process_entry. run.
        destruct (PyStr.split_once "_" key) as [[port field]|]; run.
        + destruct (ViewCommands.is_in port _); run; [apply IH|].
          destruct (ViewCommands.is_in port _); run; apply IH.
        + apply IH. }
    cbn [month_entry entries].
    edestruct C as (data' & s1 & ->). apply A.
  - split; [apply controller_undo_run|]. split; [apply controller_redo_run|].
    split; [intros; apply controller_export_run|].
    intros; apply controller_import_run.
Qed.

(** ** What the writes touch *)

Lemma save_data_other s p :
  p <> storage_file (model s) ->
  p <> LOG_FILE ->
  fs (world (snd (Model.save_data s))) !! p = fs (world s) !! p.
Proof.
  intros Hp Hl. unfold Model.save_data. run.
  destruct (write_faults (world s) !! storage_file (model s)) as [[e|e f]|];
    run; rewrite append_line_other by exact Hl; run; try reflexivity;
    apply lookup_insert_ne; congruence.
Qed.

(** X10: add, undo and redo write no path but the storage file and the
    log file: every other path holds after them what it held before. *)
Theorem saves_touch_only_the_backing_file s p :
  p <> storage_file (model s) ->
  p <> LOG_FILE ->
  (forall md, fs (world (snd (Model.add_month md s))) !! p = fs (world s) !! p)
  /\ fs (world (snd (Model.undo s))) !! p = fs (world s) !! p
  /\ fs (world (snd (Model.redo s))) !! p = fs (world s) !! p.
Proof.
  intros Hp Hl. split; [|split].
  - intros md. rewrite add_month_eq. match goal with
      | |- context [Model.save_data ?S] => rewrite (save_data_other S p Hp Hl)
      end; run; apply append_line_other, Hl.
  - destruct (undo_stack (model s)) as [|x l] eqn:E.
    + unfold Model.undo. run. rewrite E. reflexivity.
    + destruct (@exists_last _ (x :: l)) as (u & snap & E'); [discriminate|].
      rewrite E' in E. rewrite (undo_eq _ _ _ E).
      match goal with
      | |- context [Model.save_data ?S] => rewrite (save_data_other S p Hp Hl)
      end; run; apply append_line_other, Hl.
  - destruct (redo_stack (model s)) as [|x l] eqn:E.
    + unfold Model.redo. run. rewrite E. reflexivity.
    + destruct (@exists_last _ (x :: l)) as (r & snap & E'); [discriminate|].
      rewrite E' in E. rewrite (redo_eq _ _ _ E).
      match goal with
      | |- context [Model.save_data ?S] => rewrite (save_data_other S p Hp Hl)
      end; run; apply append_line_other, Hl.
Qed.

Lemma saves_touch_only_the_backing_file_witness :
  (forall md,
      fs (world (snd (Model.add_month md with_march))) !! "legacy.json"
      = fs (world with_march) !! "legacy.json")
  /\ fs (world (snd (Model.undo with_march))) !! "legacy.json"
     = fs (world with_march) !! "legacy.json"
  /\ fs (world (snd (Model.redo with_march))) !! "legacy.json"
     = fs (world with_march) !! "legacy.json".
Proof.
  apply saves_touch_only_the_backing_file; [vm_compute|]; discriminate.
Defined.

(** X11: export, at the model and through the controller, leaves the
    model as it was and changes no path but the one exported to and the
    log file; when that path cannot be written the model's export
    re-raises the error of the write. *)
Theorem export_leaves_the_ledger filepath s :
  model (snd (Model.export_data filepath s)) = model s /\
  model (snd (Controller.export_data filepath s)) = model s /\
  (forall p, p <> filepath -> p <> LOG_FILE ->
     fs (world (snd (Model.export_data filepath s))) !! p
     = fs (world s) !! p) /\
  (forall f, write_faults (world s) !! filepath = Some f ->
     fst (Model.export_data filepath s) = Raise (fault_exn f)).
Proof.
  assert (M1 : model (snd (Model.export_data filepath s)) = model s).
  { unfold Model.export_data. run.
    destruct (write_faults (world s) !! filepath) as [[e|e f]|]; reflexivity. }
  split; [exact M1|]. split; [|split].
  - unfold Controller.export_data.
    destruct (String.eqb filepath ""); [reflexivity|]. run.
    destruct (Model.export_data filepath s) as [[[]|e] s1]; exact M1.
  - intros p Hp Hl. unfold Model.export_data. run.
    destruct (write_faults (world s) !! filepath) as [[e|e f]|];
      run; rewrite append_line_other by exact Hl; run; try reflexivity;
      apply lookup_insert_ne; congruence.
  - intros f Hf. unfold Model.export_data. run. rewrite Hf.
    destruct f; reflexivity.
Qed.

(** ** Configuration *)

Lemma load_config_run s :
  exists w',
    load_config s =
      (Ok (match fs (world s) !! CONFIG_FILE with
           | Some (JsonFile doc) => doc
           | _ => DEFAULT_CONFIG
           end),
       mkState (model s) w').
Proof.
  unfold load_config. run.
  destruct (fs (world s) !! CONFIG_FILE) as [[doc|err]|] eqn:E.
  - rewrite bool_decide_eq_true_2 by eauto. run. rewrite E. run. eauto.
  - rewrite bool_decide_eq_true_2 by eauto. run. rewrite E. run. eauto.
  - rewrite bool_decide_eq_false_2 by (intros [? [=]]). run. eauto.
Qed.

(** X12: load_config never raises and writes nothing but lines of the
    log, at least one: it returns the document of config.json when
    that file holds readable JSON, and the default configuration when
    the file is missing or unreadable, in which case the error is
    logged. *)
Theorem load_config_falls_back s :
  exists w',
    load_config s =
      (Ok (match fs (world s) !! CONFIG_FILE with
           | Some (JsonFile doc) => doc
           | _ => DEFAULT_CONFIG
           end),
       mkState (model s) w') /\
    (forall p, p <> LOG_FILE -> fs w' !! p = fs (world s) !! p) /\
    (exists lines, lines <> [] /\ log w' = log (world s) ++ lines) /\
    (forall e, fs (world s) !! CONFIG_FILE = Some (BadFile e) ->
       In (mkLogRecord ERROR "Failed to load config, using defaults: %s"
                       [AExn e]) (log w')).
Proof.
  unfold load_config. run.
  destruct (fs (world s) !! CONFIG_FILE) as [[doc|err]|] eqn:E.
  - rewrite bool_decide_eq_true_2 by eauto. run. rewrite E. run.
    eexists. split; [reflexivity|]. run. split; [|split].
    + intros p Hp. apply append_line_other, Hp.
    + eexists. split; [|reflexivity]. discriminate.
    + discriminate.
  - rewrite bool_decide_eq_true_2 by eauto. run. rewrite E. run.
    eexists. split; [reflexivity|]. run. split; [|split].
    + intros p Hp. rewrite append_line_other by exact Hp. run.
      apply append_line_other, Hp.
    + eexists. split; [|symmetry; apply app_assoc]. discriminate.
    + intros e [= <-]. apply in_or_app. left. apply in_or_app. right.
      left. reflexivity.
  - rewrite bool_decide_eq_false_2 by (intros [? [=]]). run.
    eexists. split; [reflexivity|]. run. split; [|split].
    + intros p Hp. apply append_line_other, Hp.
    + eexists. split; [|reflexivity]. discriminate.
    + discriminate.
Qed.

(** X13: when config.json can be written, load_config after save_config
    returns the configuration saved, and the ledger is untouched. *)
Theorem save_then_load_config config s :
  write_faults (world s) !! CONFIG_FILE = None ->
  exists s1 s2,
    save_config config s = (Ok tt, s1) /\
    load_config s1 = (Ok config, s2) /\
    model s2 = model s.
Proof.
  intros H.
  assert (E1 : exists w1,
             save_config config s = (Ok tt, mkState (model s) w1) /\
             fs w1 !! CONFIG_FILE = Some (JsonFile config)).
  { unfold save_config. run. rewrite H. run. eexists.
    split; [reflexivity|]. run.
    rewrite append_line_other by discriminate. apply lookup_insert_eq. }
  destruct E1 as (w1 & E1 & Hf).
  destruct (load_config_run (mkState (model s) w1)) as (w2 & E2).
  cbn [world] in E2. rewrite Hf in E2. eauto.
Qed.

Lemma save_then_load_config_witness :
  exists s1 s2,
    save_config other_config started = (Ok tt, s1) /\
    load_config s1 = (Ok other_config, s2) /\
    model s2 = model started.
Proof. apply save_then_load_config. vm_compute. reflexivity. Defined.

(** X14: the storage file that main hands to the model: the
    'storage_file' entry of the configuration read, 'month_data.json'
    when the configuration has no such entry or config.json is missing
    or unreadable; a config.json holding JSON that is not an object
    makes main raise AttributeError, since load_config returns it as it
    is. *)
Theorem start_up_storage_file s :
  fst (main_storage_file s) =
    match fs (world s) !! CONFIG_FILE with
    | Some (JsonFile (PDict kvs)) =>
        Ok (default (PStr "month_data.json") (Py.assoc "storage_file" kvs))
    | Some (JsonFile doc) =>
        Raise (AttributeError
                 ("'" ++ Py.type_name doc ++ "' object has no attribute 'get'"))
    | _ => Ok (PStr "month_data.json")
    end.
Proof.
  unfold main_storage_file. run.
  destruct (load_config_run s) as (w' & ->).
  destruct (fs (world s) !! CONFIG_FILE) as [[doc|err]|]; run;
    try reflexivity.
  destruct doc as [| | | | | |kvs]; try reflexivity.
  cbn. destruct (Py.assoc "storage_file" kvs); reflexivity.
Qed.

(** ** The breakdown *)

(** X15: the monthly breakdown plots the last record of the ledger:
    right after an add, the record just added; on an empty ledger it
    shows 'No data to plot.' and plots nothing. *)
Theorem breakdown_plots_latest s :
  (forall md, exists s',
      Model.add_month md s = (Ok tt, s') /\
      ControllerPlots.plot_monthly_breakdown s' = (Ok (Some md), s')) /\
  (months (model s) = [] ->
   ControllerPlots.plot_monthly_breakdown s
   = (Ok None,
      mkState (model s) (add_gui (ShowError "No data to plot.") (world s)))).
Proof.
  split.
  - intros md. destruct (add_month_run md s) as [w' E]. eexists.
    split; [exact E|]. unfold ControllerPlots.plot_monthly_breakdown. run.
    cbn [appended months]. rewrite last_snoc. reflexivity.
  - intros E. unfold ControllerPlots.plot_monthly_breakdown. run.
    rewrite E. reflexivity.
Qed.

(** ** Choosing the months to plot *)

Lemma is_in_In x l : ViewCommands.is_in x l = true <-> In x l.
Proof.
  unfold ViewCommands.is_in. rewrite existsb_exists. split.
  - intros (y & Hy & E). apply String.eqb_eq in E. subst. exact Hy.
  - intros H. exists x. split; [exact H | apply String.eqb_refl].
Qed.

Lemma filter_selected_labelled selected ms :
  Forall labelled ms ->
  ControllerPlots.filter_selected selected ms
  = Ok (List.filter (is_selected selected) ms).
Proof.
  induction 1 as [|md ms [label Hl] _ IH]; [reflexivity|].
  cbn [ControllerPlots.filter_selected List.filter].
  unfold ControllerPlots.month_lower, is_selected.
  unfold label_of in Hl |- *. destruct (month md); try discriminate.
  run. rewrite IH. run. reflexivity.
Qed.

Lemma has_comma_cons c s :
  has_comma (String c s) = Ascii.eqb "," c || has_comma s.
Proof. reflexivity. Qed.

Lemma lower_char_comma c :
  Ascii.eqb "," (PyText.lower_char c) = Ascii.eqb "," c.
Proof. destruct c as [[] [] [] [] [] [] [] []]; reflexivity. Qed.

Lemma has_comma_lower s : has_comma (PyText.lower s) = has_comma s.
Proof.
  induction s as [|c s IH]; [reflexivity|].
  cbn [PyText.lower]. rewrite !has_comma_cons, lower_char_comma, IH.
  reflexivity.
Qed.

Lemma split_no_comma s :
  Forall (fun piece => has_comma piece = false) (PyText.split "," s).
Proof.
  induction s as [|c s IH]; [repeat constructor|].
  cbn [PyText.split]. destruct (Ascii.eqb c ",") eqn:E.
  - constructor; [reflexivity | exact IH].
  - destruct (PyText.split "," s) as [|piece pieces]; [repeat constructor;
      rewrite has_comma_cons, Ascii.eqb_sym, E; reflexivity|].
    inversion IH as [|? ? Hp Hps]; subst. constructor; [|exact Hps].
    rewrite has_comma_cons, Ascii.eqb_sym, E. exact Hp.
Qed.

Lemma lstrip_no_comma ws s :
  has_comma s = false -> has_comma (PyStr.lstrip_with ws s) = false.
Proof.
  induction s as [|c s IH]; [reflexivity|]. intros H. cbn.
  destruct (ws c); [|exact H]. apply IH.
  rewrite has_comma_cons in H. apply orb_false_elim in H as [_ H]. exact H.
Qed.

Lemma rstrip_no_comma ws s :
  has_comma s = false -> has_comma (PyStr.rstrip_with ws s) = false.
Proof.
  induction s as [|c s IH]; [reflexivity|]. intros H.
  rewrite has_comma_cons in H. apply orb_false_elim in H as [Hc H].
  cbn [PyStr.rstrip_with]. specialize (IH H).
  destruct (PyStr.rstrip_with ws s).
  - destruct (ws c); [reflexivity|]. rewrite has_comma_cons, Hc. reflexivity.
  - rewrite has_comma_cons, Hc. exact IH.
Qed.

Lemma strip_no_comma s :
  has_comma s = false -> has_comma (PyStr.strip s) = false.
Proof. intros H. apply rstrip_no_comma, lstrip_no_comma, H. Qed.

Lemma split_nonempty sep s : PyText.split sep s <> [].
Proof.
  destruct s as [|c s]; [discriminate|]. cbn.
  destruct (Ascii.eqb c sep); [discriminate|].
  destruct (PyText.split sep s); discriminate.
Qed.

(** What [select_months] does on a ledger whose labels are strings. *)
Lemma select_months_labelled text s :
  Forall labelled (months (model s)) ->
  months (model s) <> [] ->
  PyStr.strip text <> "" ->
  let selected := map (fun m => PyText.lower (PyStr.strip m))
                      (PyText.split "," text) in
  ControllerPlots.select_months (selection_of text) s =
    match List.filter (is_selected selected) (months (model s)) with
    | [] =>
        (Ok None,
         mkState (model s)
                 (add_gui (ShowError "No matching months found.") (world s)))
    | filtered => (Ok (Some filtered), s)
    end.
Proof.
  intros Hl Hm Ht selected.
  unfold ControllerPlots.select_months, selection_of. run.
  apply String.eqb_neq in Ht. rewrite Ht. fold selected.
  destruct (months (model s)) as [|md0 ms] eqn:Em; [contradiction|].
  destruct selected as [|x sel] eqn:Es.
  { exfalso. apply map_eq_nil in Es. exact (split_nonempty _ _ Es). }
  run. rewrite (filter_selected_labelled _ _ Hl).
  destruct (List.filter _ _); reflexivity.
Qed.

(** X16: in the progress dialog, a record whose label equals one of the
    comma-separated pieces typed, up to the case of letters and the
    white space around the piece, is among the records plotted. *)
Theorem typed_label_is_selected s text piece md label :
  Forall labelled (months (model s)) ->
  In md (months (model s)) ->
  label_of md = Some label ->
  In piece (PyText.split "," text) ->
  PyText.lower (PyStr.strip piece) = PyText.lower label ->
  exists filtered,
    ControllerPlots.select_months (selection_of text) s
    = (Ok (Some filtered), s) /\
    In md filtered.
Proof.
  intros Hl Hin Hlab Hp He.
  destruct (String.eqb (PyStr.strip text) "") eqn:Et.
  - exists (months (model s)). split; [|exact Hin].
    unfold ControllerPlots.select_months, selection_of. run. rewrite Et.
    destruct (months (model s)); [destruct Hin | reflexivity].
  - apply String.eqb_neq in Et.
    rewrite (select_months_labelled text s Hl); [|intros E; rewrite E in Hin;
      destruct Hin | exact Et].
    set (selected := map _ _).
    assert (Hf : In md (List.filter (is_selected selected) (months (model s)))).
    { apply filter_In. split; [exact Hin|]. unfold is_selected.
      rewrite Hlab. apply is_in_In. rewrite <- He.
      apply (in_map (fun m => PyText.lower (PyStr.strip m))), Hp. }
    destruct (List.filter _ _) as [|x l]; [destruct Hf|].
    exists (x :: l). split; [reflexivity | exact Hf].
Qed.

(** X17: a record whose label contains a comma can never be picked by
    name in the progress dialog: whatever non-blank text is typed, the
    records plotted (if any) do not include it, because the text is
    split at commas. *)
Theorem comma_label_is_never_selected s text md label :
  Forall labelled (months (model s)) ->
  label_of md = Some label ->
  has_comma label = true ->
  PyStr.strip text <> "" ->
  fst (ControllerPlots.select_months (selection_of text) s) = Ok None \/
  exists filtered,
    fst (ControllerPlots.select_months (selection_of text) s)
    = Ok (Some filtered) /\
    ~ In md filtered.
Proof.
  intros Hl Hlab Hc Ht.
  assert (Hm : months (model s) = [] \/ months (model s) <> [])
    by (destruct (months (model s)); [left | right]; congruence).
  destruct Hm as [Em|Hm].
  { left. unfold ControllerPlots.select_months. run. rewrite Em. reflexivity. }
  rewrite (select_months_labelled text s Hl Hm Ht).
  set (selected := map _ _).
  assert (Hn : ~ In md (List.filter (is_selected selected)
                                    (months (model s)))).
  { intros Hf. apply filter_In in Hf as [_ Hs]. unfold is_selected in Hs.
    rewrite Hlab in Hs. apply is_in_In in Hs. subst selected.
    apply in_map_iff in Hs as (piece & E & Hp).
    pose proof (split_no_comma text) as Hall.
    rewrite List.Forall_forall in Hall. specialize (Hall _ Hp).
    apply strip_no_comma in Hall. rewrite <- has_comma_lower, E in Hall.
    rewrite has_comma_lower in Hall. congruence. }
  destruct (List.filter _ _) as [|x l]; [left; reflexivity|].
  right. exists (x :: l). split; [reflexivity | exact Hn].
Qed.

Lemma typed_label_is_selected_witness :
  exists filtered,
    ControllerPlots.select_months (selection_of " MARCH 2025 ,x") with_march
    = (Ok (Some filtered), with_march) /\
    In (hd january (months (model with_march))) filtered.
Proof.
  apply (typed_label_is_selected with_march " MARCH 2025 ,x" " MARCH 2025 "
           _ "March 2025").
  - vm_compute. repeat constructor. eexists. reflexivity.
  - vm_compute. left. reflexivity.
  - reflexivity.
  - vm_compute. left. reflexivity.
  - reflexivity.
Defined.

Lemma comma_label_is_never_selected_witness :
  fst (ControllerPlots.select_months (selection_of "March, 2025")
         with_comma_label) = Ok None \/
  exists filtered,
    fst (ControllerPlots.select_months (selection_of "March, 2025")
           with_comma_label) = Ok (Some filtered) /\
    ~ In (hd january (months (model with_comma_label))) filtered.
Proof.
  apply (comma_label_is_never_selected with_comma_label "March, 2025"
           _ "March, 2025").
  - vm_compute. repeat constructor. eexists. reflexivity.
  - reflexivity.
  - reflexivity.
  - vm_compute. discriminate.
Defined.

(** ** The lines of the progress plot *)

Lemma map_res_ok {A B} (f : A -> Res B) (g : A -> B) l :
  (forall x, In x l -> f x = Ok (g x)) -> map_res f l = Ok (map g l).
Proof.
  induction l as [|x l IH]; intros H; [reflexivity|].
  cbn [map_res map]. rewrite (H x) by (left; reflexivity). run.
  rewrite IH by (intros y Hy; apply H; right; exact Hy). reflexivity.
Qed.

Lemma get_of_dict v field d :
  is_dict v = true ->
  Py.get v field d = Ok (default d (Py.assoc field (dict_items v))).
Proof.
  destruct v; try discriminate. intros _. cbn.
  destruct (Py.assoc field items); reflexivity.
Qed.

Lemma portfolio_lines_of_dicts first rest port_name getter :
  Forall (fun md => is_dict (getter md) = true) (first :: rest) ->
  ControllerPlots.portfolio_lines (first :: rest) (port_name, getter)
  = Ok (map (line_of (first :: rest) port_name getter)
            (map fst (dict_items (getter first)))).
Proof.
  intros H. unfold ControllerPlots.portfolio_lines.
  assert (Hf : is_dict (getter first) = true) by (inversion H; assumption).
  destruct (getter first) as [| | | | | |kvs] eqn:E; try discriminate.
  cbn [py_keys dict_items]. run.
  apply map_res_ok. intros field _.
  unfold ControllerPlots.values_of, line_of.
  rewrite (map_res_ok _ (fun md => default (PInt 0)
                           (Py.assoc field (dict_items (getter md))))).
  - reflexivity.
  - intros md Hmd. apply get_of_dict.
    rewrite List.Forall_forall in H. apply H, Hmd.
Qed.

(** X18: the lines of the progress plot, when the Chumz and Ziidi fields
    of the chosen records are mappings: one line for each key of the
    first chosen record's mappings (the keys of its Chumz fields, then
    Cash, Crypto, Investment, then the keys of its Ziidi fields), each
    with one value for every chosen record, 0 where a record lacks the
    key; keys that only later records have get no line. *)
Theorem progress_lines_of_dicts first rest :
  Forall (fun md => is_dict (fields (chumz md)) = true /\
                    is_dict (fields (ziidi md)) = true) (first :: rest) ->
  ControllerPlots.progress_lines (first :: rest)
  = Ok (lines_of (first :: rest) first) /\
  Forall (fun line => length (line_values line) = S (length rest))
         (lines_of (first :: rest) first) /\
  map line_field (lines_of (first :: rest) first)
  = field_names (fields (chumz first))
    ++ ["Cash"; "Crypto"; "Investment"]
    ++ field_names (fields (ziidi first)).
Proof.
  intros H.
  assert (Hc : Forall (fun md => is_dict (fields (chumz md)) = true)
                      (first :: rest))
    by (eapply List.Forall_impl; [|exact H]; intros ? [? ?]; assumption).
  assert (Hz : Forall (fun md => is_dict (fields (ziidi md)) = true)
                      (first :: rest))
    by (eapply List.Forall_impl; [|exact H]; intros ? [? ?]; assumption).
  split; [|split].
  - unfold ControllerPlots.progress_lines, ControllerPlots.portfolios.
    cbn [map_res]. run.
    rewrite (portfolio_lines_of_dicts first rest "Chumz" _ Hc).
    rewrite (portfolio_lines_of_dicts first rest "Cash"
               (fun md => PDict [("Cash", value (cash md))]))
      by (apply List.Forall_forall; reflexivity).
    rewrite (portfolio_lines_of_dicts first rest "Crypto"
               (fun md => PDict [("Crypto", value (crypto md))]))
      by (apply List.Forall_forall; reflexivity).
    rewrite (portfolio_lines_of_dicts first rest "Etica"
               (fun md => PDict [("Investment", value (etica md))]))
      by (apply List.Forall_forall; reflexivity).
    rewrite (portfolio_lines_of_dicts first rest "Ziidi" _ Hz).
    run. unfold lines_of, ControllerPlots.portfolios. cbn [flat_map fst snd].
    cbn [concat]. reflexivity.
  - unfold lines_of. apply List.Forall_forall. intros line Hin.
    apply in_flat_map in Hin as ([port getter] & _ & Hin).
    apply in_map_iff in Hin as (field & <- & _).
    cbn. rewrite length_map. reflexivity.
  - unfold lines_of, ControllerPlots.portfolios. cbn [flat_map fst snd].
    rewrite !map_app, !map_map. cbn [line_field line_of dict_items map].
    rewrite app_nil_r.
    inversion Hc as [|? ? Hc1 _]; inversion Hz as [|? ? Hz1 _]; subst.
    destruct (fields (chumz first)); try discriminate.
    destruct (fields (ziidi first)); try discriminate.
    cbn. reflexivity.
Qed.

Lemma progress_lines_of_dicts_witness :
  ControllerPlots.progress_lines
    [hd january (months (model with_march)); january]
  = Ok (lines_of [hd january (months (model with_march)); january]
                 (hd january (months (model with_march)))) /\
  Forall (fun line => length (line_values line) = 2)
         (lines_of [hd january (months (model with_march)); january]
                   (hd january (months (model with_march)))) /\
  map line_field (lines_of [hd january (months (model with_march)); january]
                           (hd january (months (model with_march))))
  = field_names (fields (chumz (hd january (months (model with_march)))))
    ++ ["Cash"; "Crypto"; "Investment"]
    ++ field_names (fields (ziidi (hd january (months (model with_march))))).
Proof.
  apply (progress_lines_of_dicts (hd january (months (model with_march)))
           [january]).
  repeat constructor.
Defined.
